(** * cout.ai backend: conversation-session orchestration

    A shallow embedding of the chat router ([app/routers/chat.py]), the
    datastore facade ([app/services/supabase_service.py]) and the completion
    facade ([app/services/openai_service.py]), with the properties of the
    specification stated and proved over it.

    Python [str] values are sequences of Unicode code points; the external
    collaborators (datastore, identity provider, completion provider, clock,
    UUID generator) are oracles of an environment, and the handlers are
    computations in a state-and-exception monad over the datastore tables. *)

From Stdlib Require Import String Ascii DecimalString.
From Stdlib Require Import List NArith Bool Arith Lia Permutation Sorted.
Import ListNotations.

(** ** Python strings *)

Module PyStr.

(** A character is a Unicode code point. *)
Definition char := N.
Definition str := list char.

(** An ASCII literal of the source, as a Python string. *)
Definition lit (s : string) : str := map N_of_ascii (list_ascii_of_string s).

(** [bool(s)]: the empty string is falsy. *)
Definition truthy (s : str) : bool :=
  match s with [] => false | _ :: _ => true end.

(** [bool(x)] for an [Optional[str]]: [None] and [""] are both falsy. *)
Definition truthy_opt (o : option str) : bool :=
  match o with None => false | Some s => truthy s end.

Fixpoint eqb (a b : str) : bool :=
  match a, b with
  | [], [] => true
  | x :: a', y :: b' => N.eqb x y && eqb a' b'
  | _, _ => false
  end.

(** [s.startswith(p)]. *)
Fixpoint startswith (p s : str) : bool :=
  match p, s with
  | [], _ => true
  | _ :: _, [] => false
  | x :: p', y :: s' => N.eqb x y && startswith p' s'
  end.

(** [p in s]. *)
Fixpoint contains (p s : str) : bool :=
  startswith p s ||
  match s with
  | [] => false
  | _ :: s' => contains p s'
  end.

(** [str.isspace] on one character, the set [str.strip()] removes. *)
Definition isspace (c : char) : bool :=
  (((9 <=? c) && (c <=? 13)) || ((28 <=? c) && (c <=? 32))
   || (c =? 133) || (c =? 160) || (c =? 5760)
   || ((8192 <=? c) && (c <=? 8202))
   || (c =? 8232) || (c =? 8233) || (c =? 8239) || (c =? 8287)
   || (c =? 12288))%N.

Fixpoint lstrip (s : str) : str :=
  match s with
  | [] => []
  | c :: s' => if isspace c then lstrip s' else s
  end.

Definition rstrip (s : str) : str := rev (lstrip (rev s)).

(** [s.strip()]. *)
Definition strip (s : str) : str := rstrip (lstrip s).

(** [s.replace(old, new)] for a non-empty [old]: a single left-to-right
    pass over non-overlapping occurrences. [skip] counts the characters of
    a matched occurrence still to be passed over. *)
Fixpoint replace_from (old new : str) (skip : nat) (s : str) : str :=
  match s with
  | [] => []
  | c :: s' =>
      match skip with
      | S k => replace_from old new k s'
      | O =>
          if startswith old s
          then new ++ replace_from old new (length old - 1) s'
          else c :: replace_from old new 0 s'
      end
  end.

(** With an empty [old], Python puts [new] before every character and at
    the end. *)
Definition replace (old new s : str) : str :=
  match old with
  | [] => new ++ flat_map (fun c => c :: new) s
  | _ :: _ => replace_from old new 0 s
  end.

(** [sep.join(parts)]. *)
Fixpoint join (sep : str) (parts : list str) : str :=
  match parts with
  | [] => []
  | [x] => x
  | x :: rest => x ++ sep ++ join sep rest
  end.

End PyStr.

Import PyStr.


(** [str(n)] for a non-negative integer. *)
Definition str_of_nat (n : nat) : str :=
  lit (NilZero.string_of_uint (Nat.to_uint n)).

(** [str(uuid.uuid4())]: 32 lower-case hexadecimal digits of a 128-bit value,
    grouped 8-4-4-4-12. *)
Definition hex_digit (d : N) : char :=
  (if d <? 10 then 48 + d else 87 + d)%N.

Definition nibble (u : N) (i : N) : char :=
  hex_digit (N.land (N.shiftr u (4 * i)) 15).

Definition uuid_str (u : N) : str :=
  map (nibble u) [31; 30; 29; 28; 27; 26; 25; 24]%N ++ lit "-"
  ++ map (nibble u) [23; 22; 21; 20]%N ++ lit "-"
  ++ map (nibble u) [19; 18; 17; 16]%N ++ lit "-"
  ++ map (nibble u) [15; 14; 13; 12]%N ++ lit "-"
  ++ map (nibble u) [11; 10; 9; 8; 7; 6; 5; 4; 3; 2; 1; 0]%N.

(** ** Data model *)

(** Timestamps are readings of the clock; their ISO rendering
    ([isoformat() + "Z"]) is not modelled. *)
Definition timestamp := nat.

(** A row of [chat_sessions]. *)
Record SessionRow := mkSession {
  s_id : str;
  s_user_id : str;
  s_title : str;
  s_created_at : timestamp;
  s_updated_at : timestamp;
  s_message_count : nat
}.

(** A row of [chat_messages]; the [session_id] column is nullable. *)
Record MessageRow := mkMessage {
  m_id : str;
  m_user_id : str;
  m_session_id : option str;
  m_user_message : str;
  m_ai_response : str;
  m_created_at : timestamp
}.

(** A key of a Python dict: missing, present with [None], or present with a
    value. *)
Inductive Entry (A : Type) : Type :=
| NoKey : Entry A
| Null : Entry A
| Val : A -> Entry A.
Arguments NoKey {A}.
Arguments Null {A}.
Arguments Val {A} _.

(** [d.get(key, default)]. *)
Definition dict_get {A} (e : Entry A) (default : option A) : option A :=
  match e with
  | NoKey => default
  | Null => None
  | Val a => Some a
  end.

(** The message dict built and returned by [log_chat_message]. *)
Record MessageDict := mkMessageDict {
  d_id : str;
  d_user_id : str;
  d_session_id : Entry str;
  d_user_message : str;
  d_ai_response : str;
  d_created_at : timestamp
}.

Definition row_of_dict (d : MessageDict) : MessageRow :=
  {| m_id := d_id d; m_user_id := d_user_id d;
     m_session_id := dict_get (d_session_id d) None;
     m_user_message := d_user_message d; m_ai_response := d_ai_response d;
     m_created_at := d_created_at d |}.

Definition dict_of_row (r : MessageRow) : MessageDict :=
  {| d_id := m_id r; d_user_id := m_user_id r;
     d_session_id := match m_session_id r with Some s => Val s | None => Null end;
     d_user_message := m_user_message r; d_ai_response := m_ai_response r;
     d_created_at := m_created_at r |}.

(** The two selected columns of [get_recent_context]. *)
Record ContextRow := mkContext {
  c_user_message : str;
  c_ai_response : str
}.

Definition context_of_row (r : MessageRow) : ContextRow :=
  {| c_user_message := m_user_message r; c_ai_response := m_ai_response r |}.

(** The user dict of [validate_user_token]. *)
Record User := mkUser {
  u_id : str;
  u_email : str;
  u_created_at : timestamp
}.

(** [app/models/chat.py] *)
Record ChatRequest := mkChatRequest {
  rq_message : str;
  rq_session_id : option str
}.

(** [Field(..., min_length=1, max_length=2000)] on [ChatRequest.message]. *)
Definition valid_message (m : str) : bool :=
  (1 <=? length m) && (length m <=? 2000).

Record ChatResponse := mkChatResponse {
  r_message : str;
  r_timestamp : timestamp;
  r_session_id : option str;
  r_session_title : option str
}.

Record ChatHistory := mkChatHistory {
  h_id : str;
  h_user_id : str;
  h_session_id : str;
  h_user_message : str;
  h_ai_response : str;
  h_created_at : timestamp
}.

Record ChatSession := mkChatSession {
  cs_id : str;
  cs_user_id : str;
  cs_title : str;
  cs_created_at : timestamp;
  cs_updated_at : timestamp;
  cs_message_count : nat
}.

Record CreateSessionRequest := mkCreateSessionRequest {
  rq_title : option str
}.

Record DeleteResponse := mkDeleteResponse {
  del_message : str
}.

Record DeleteAllResponse := mkDeleteAllResponse {
  da_message : str;
  deleted_count : nat
}.

(** Roles of the completion API. *)
Inductive Role := RoleSystem | RoleUser | RoleAssistant.

Record ChatMsg := mkChatMsg {
  role : Role;
  content : str
}.

(** ** Exceptions *)

Inductive exn :=
| HTTPException (status_code : nat) (detail : str)
| Exception (msg : str).

(** [str(e)]. *)
Definition exn_str (e : exn) : str :=
  match e with
  | HTTPException c d => str_of_nat c ++ lit ": " ++ d
  | Exception m => m
  end.

Inductive Result (A : Type) : Type :=
| Ok : A -> Result A
| Raise : exn -> Result A.
Arguments Ok {A} _.
Arguments Raise {A} _.

(** ** External collaborators *)

(** What a datastore request can do other than answer: raise with a message,
    or answer with empty [data] (and no [count]). *)
Inductive Fault :=
| Raises (msg : str)
| Blank.

(** [client.auth.get_user(token)]. *)
Inductive AuthOutcome :=
| AuthRaises (msg : str)
| AuthNoUser
| AuthUser (u : User).

(** [client.chat.completions.create(...)] followed by
    [response.choices[0].message.content]. *)
Inductive ApiOutcome :=
| RateLimitError
| AuthenticationError
| APIError (msg : str)
| OtherError (msg : str)
| Content (c : option str).

(** The environment of a request: configuration and oracles. The clock, the
    UUID generator and the datastore's faults are indexed by the position of
    the call in the run. *)
Record Env := mkEnv {
  SYSTEM_PROMPT : str;
  uuid4_value : nat -> N;
  utcnow_value : nat -> timestamp;
  fault_at : nat -> option Fault;
  completions_create : list ChatMsg -> ApiOutcome;
  auth_get_user : str -> AuthOutcome
}.

(** The state a request runs in: the two tables, the number of oracle calls
    made so far, and the prompts sent to the completion provider. *)
Record World := mkWorld {
  chat_sessions : list SessionRow;
  chat_messages : list MessageRow;
  step : nat;
  prompts : list (list ChatMsg)
}.

(** ** The monad of handlers: state and exceptions *)

Definition M (A : Type) : Type := World -> Result A * World.

Definition ret {A} (a : A) : M A := fun w => (Ok a, w).

Definition bind {A B} (c : M A) (k : A -> M B) : M B :=
  fun w =>
    match c w with
    | (Ok a, w') => k a w'
    | (Raise e, w') => (Raise e, w')
    end.

Definition raise {A} (e : exn) : M A := fun w => (Raise e, w).

(** [try: c  except Exception as e: h e]. Effects of [c] before the
    exception stay. *)
Definition try_except {A} (c : M A) (h : exn -> M A) : M A :=
  fun w =>
    match c w with
    | (Ok a, w') => (Ok a, w')
    | (Raise e, w') => h e w'
    end.

Definition gets {A} (f : World -> A) : M A := fun w => (Ok (f w), w).

Definition modify (f : World -> World) : M unit := fun w => (Ok tt, f w).

Declare Scope monad_scope.
Delimit Scope monad_scope with M.
Notation "x <- c ;; k" := (bind c (fun x => k))
  (at level 61, c at next level, right associativity) : monad_scope.
Notation "c ;;; k" := (bind c (fun _ => k))
  (at level 61, right associativity) : monad_scope.
Open Scope monad_scope.

Fixpoint mapM {A B} (f : A -> M B) (l : list A) : M (list B) :=
  match l with
  | [] => ret []
  | a :: l' => b <- f a ;; bs <- mapM f l' ;; ret (b :: bs)
  end.

(** ** Query results: ordering and limits *)

Fixpoint insert_by {A} (leb : A -> A -> bool) (a : A) (l : list A) : list A :=
  match l with
  | [] => [a]
  | b :: l' => if leb a b then a :: l else b :: insert_by leb a l'
  end.

(** [.order(column, desc=...)]: rows that compare equal keep the order of
    the table. *)
Fixpoint order_by {A} (leb : A -> A -> bool) (l : list A) : list A :=
  match l with
  | [] => []
  | a :: l' => insert_by leb a (order_by leb l')
  end.

Definition asc {A} (key : A -> nat) (a b : A) : bool := key a <=? key b.
Definition desc {A} (key : A -> nat) (a b : A) : bool := key b <=? key a.

(** [.limit(n)]. *)
Definition limit {A} (n : nat) (l : list A) : list A := firstn n l.

(** [l[-n:]] for [n > 0]. *)
Definition last_n {A} (n : nat) (l : list A) : list A :=
  skipn (length l - n) l.

(** ** Oracle calls and table updates *)

Section Primitives.

Variable env : Env.

(** Every oracle call takes the next position of the run. *)
Definition tick : M nat :=
  fun w =>
    (Ok (step w),
     {| chat_sessions := chat_sessions w; chat_messages := chat_messages w;
        step := S (step w); prompts := prompts w |}).

Definition uuid4 : M str := k <- tick ;; ret (uuid_str (uuid4_value env k)).

Definition utcnow : M timestamp := k <- tick ;; ret (utcnow_value env k).

Definition set_sessions (f : list SessionRow -> list SessionRow) : M unit :=
  modify (fun w =>
    {| chat_sessions := f (chat_sessions w); chat_messages := chat_messages w;
       step := step w; prompts := prompts w |}).

Definition set_messages (f : list MessageRow -> list MessageRow) : M unit :=
  modify (fun w =>
    {| chat_sessions := chat_sessions w; chat_messages := f (chat_messages w);
       step := step w; prompts := prompts w |}).

Definition record_prompt (p : list ChatMsg) : M unit :=
  modify (fun w =>
    {| chat_sessions := chat_sessions w; chat_messages := chat_messages w;
       step := step w; prompts := prompts w ++ [p] |}).

End Primitives.

(** ** [app/config.py] *)

Module config.

(** The environment-driven part of [Settings]; an unset variable reads as
    the empty string. *)
Record Settings := mkSettings {
  OPENAI_API_KEY : str;
  SUPABASE_URL : str;
  SUPABASE_ANON_KEY : str;
  SUPABASE_SERVICE_ROLE_KEY : str
}.

(** The names [validate_config] collects in [missing_vars], in its order. *)
Definition missing_vars (self : Settings) : list str :=
  (if negb (truthy (OPENAI_API_KEY self)) then [lit "OPENAI_API_KEY"] else [])
  ++ (if negb (truthy (SUPABASE_URL self)) then [lit "SUPABASE_URL"] else [])
  ++ (if negb (truthy (SUPABASE_ANON_KEY self))
      then [lit "SUPABASE_ANON_KEY"] else []).

(** [ValueError] is raised as an [Exception] with its message. *)
Definition validate_config (self : Settings) : Result bool :=
  match missing_vars self with
  | [] => Ok true
  | _ :: _ =>
      Raise (Exception
               (lit "Missing required environment variables: "
                ++ join (lit ", ") (missing_vars self)))
  end.

End config.

(** ** The datastore and [SupabaseService] *)

Module supabase_service.

(** What [create_client(url, key)] was called with. *)
Record Client := mkClient {
  client_url : str;
  client_key : str
}.

(** [SupabaseService.__init__]. [create_client] belongs to the datastore
    library and can itself raise on a URL or a key it does not accept: it
    is a parameter, and what it raises leaves the constructor. *)
Definition init (create_client : str -> str -> Result Client)
    (settings : config.Settings) : Result Client :=
  if negb (truthy (config.SUPABASE_URL settings))
  then Raise (Exception (lit "Supabase URL is required"))
  else if truthy (config.SUPABASE_SERVICE_ROLE_KEY settings)
  then create_client (config.SUPABASE_URL settings)
         (config.SUPABASE_SERVICE_ROLE_KEY settings)
  else if truthy (config.SUPABASE_ANON_KEY settings)
  then create_client (config.SUPABASE_URL settings)
         (config.SUPABASE_ANON_KEY settings)
  else Raise (Exception
         (lit "Either SUPABASE_SERVICE_ROLE_KEY or SUPABASE_ANON_KEY is required")).

Section Service.

Variable env : Env.

(** [.execute()]: the request raises, or is carried out; a [Blank] answer
    carries the request out and returns [blank] in place of its result. *)
Definition execute {A} (blank : A) (run : M A) : M A :=
  k <- tick ;;
  match fault_at env k with
  | Some (Raises m) => raise (Exception m)
  | Some Blank => run ;;; ret blank
  | None => run
  end.

(** [.single()]: anything but exactly one row is an error of the store. *)
Definition single {A} (rows : list A) : M A :=
  match rows with
  | [r] => ret r
  | _ => raise (Exception
           (lit "JSON object requested, multiple (or no) rows returned"))
  end.

(** [.eq("id", sid).eq("user_id", uid)] on [chat_sessions]. *)
Definition session_is (sid uid : str) (s : SessionRow) : bool :=
  eqb (s_id s) sid && eqb (s_user_id s) uid.

(** [.eq("user_id", uid)] on [chat_sessions]. *)
Definition session_of (uid : str) (s : SessionRow) : bool :=
  eqb (s_user_id s) uid.

(** [.eq("user_id", uid)], and [.eq("session_id", sid)] when [sid] is truthy,
    on [chat_messages]. *)
Definition message_in (uid : str) (sid : option str) (m : MessageRow) : bool :=
  eqb (m_user_id m) uid &&
  match sid with
  | Some s =>
      if truthy s
      then match m_session_id m with Some s' => eqb s' s | None => false end
      else true
  | None => true
  end.

Definition select_sessions (p : SessionRow -> bool)
    (ord : SessionRow -> SessionRow -> bool) (n : nat) : M (list SessionRow) :=
  execute [] (gets (fun w => limit n (order_by ord (filter p (chat_sessions w))))).

Definition select_single_session (p : SessionRow -> bool)
  : M (option SessionRow) :=
  execute None
    (rows <- gets (fun w => filter p (chat_sessions w)) ;;
     r <- single rows ;;
     ret (Some r)).

Definition count_sessions (p : SessionRow -> bool) : M (option nat) :=
  execute None (gets (fun w => Some (length (filter p (chat_sessions w))))).

Definition insert_session (row : SessionRow) : M (list SessionRow) :=
  execute [] (set_sessions (fun l => l ++ [row]) ;;; ret [row]).

Definition update_sessions (p : SessionRow -> bool)
    (new_title : str) (now : timestamp) : M unit :=
  execute tt
    (set_sessions (map (fun s =>
       if p s
       then {| s_id := s_id s; s_user_id := s_user_id s; s_title := new_title;
               s_created_at := s_created_at s; s_updated_at := now;
               s_message_count := s_message_count s |}
       else s))).

(** Modelled from the spec: the cascade of a session's deletion to its
    messages is a rule of the datastore schema, which is not part of the
    source ("cascading removal of that session's messages is a
    datastore-level guarantee"). *)
Definition cascades (gone : list SessionRow) (m : MessageRow) : bool :=
  match m_session_id m with
  | Some s => existsb (fun r => eqb (s_id r) s) gone
  | None => false
  end.

Definition delete_sessions (p : SessionRow -> bool) : M unit :=
  execute tt
    (gone <- gets (fun w => filter p (chat_sessions w)) ;;
     set_sessions (filter (fun s => negb (p s))) ;;;
     set_messages (filter (fun m => negb (cascades gone m)))).

(** Modelled from the spec: the message counter of a session is kept by the
    datastore schema, which is not part of the source ("monotonic counter
    incremented by the store on each logged message"). *)
Definition count_message (sid : option str) (s : SessionRow) : SessionRow :=
  match sid with
  | Some i =>
      if eqb (s_id s) i
      then {| s_id := s_id s; s_user_id := s_user_id s; s_title := s_title s;
              s_created_at := s_created_at s; s_updated_at := s_updated_at s;
              s_message_count := S (s_message_count s) |}
      else s
  | None => s
  end.

Definition insert_message (d : MessageDict) : M (list MessageDict) :=
  execute []
    (set_messages (fun l => l ++ [row_of_dict d]) ;;;
     set_sessions (map (count_message (m_session_id (row_of_dict d)))) ;;;
     ret [dict_of_row (row_of_dict d)]).

Definition select_messages (p : MessageRow -> bool)
    (ord : MessageRow -> MessageRow -> bool) (n : nat) : M (list MessageRow) :=
  execute [] (gets (fun w => limit n (order_by ord (filter p (chat_messages w))))).

(** *** The methods of the service *)

(** ["does not exist" in str(e) or "relation" in str(e)] *)
Definition table_missing (e : exn) : bool :=
  contains (lit "does not exist") (exn_str e)
  || contains (lit "relation") (exn_str e).

Definition create_chat_session (user_id title : str) : M SessionRow :=
  try_except
    (id <- uuid4 env ;;
     created <- utcnow env ;;
     updated <- utcnow env ;;
     let session_data :=
       {| s_id := id; s_user_id := user_id; s_title := title;
          s_created_at := created; s_updated_at := updated;
          s_message_count := 0 |} in
     data <- insert_session session_data ;;
     match data with
     | r :: _ => ret r
     | [] => raise (Exception (lit "Failed to create chat session"))
     end)
    (fun e => raise e).

Definition get_user_sessions (user_id : str) (n : nat) : M (list SessionRow) :=
  try_except
    (select_sessions (session_of user_id) (desc s_updated_at) n)
    (fun e => if table_missing e then ret [] else ret []).

Definition get_session_by_id (session_id user_id : str)
  : M (option SessionRow) :=
  try_except
    (select_single_session (session_is session_id user_id))
    (fun e => if table_missing e then ret None else ret None).

(** [user_message[:50] + "..." if len(user_message) > 50 else user_message] *)
Definition session_title (user_message : str) : str :=
  if 50 <? length user_message
  then firstn 50 user_message ++ lit "..."
  else user_message.

Definition log_chat_message (user_id user_message ai_response : str)
    (session_id : option str) : M MessageDict :=
  session_id <-
    (if negb (truthy_opt session_id)
     then try_except
            (session <- create_chat_session user_id (session_title user_message) ;;
             ret (Some (s_id session)))
            (fun _ => ret None)
     else ret session_id) ;;
  id <- uuid4 env ;;
  created <- utcnow env ;;
  let message_data :=
    {| d_id := id; d_user_id := user_id;
       d_session_id :=
         match session_id with
         | Some s => if truthy s then Val s else NoKey
         | None => NoKey
         end;
       d_user_message := user_message; d_ai_response := ai_response;
       d_created_at := created |} in
  try_except
    (data <- insert_message message_data ;;
     match data with
     | r :: _ => ret r
     | [] => raise (Exception (lit "Failed to insert chat message"))
     end)
    (fun _ => ret message_data).

Definition get_chat_history (user_id : str) (session_id : option str)
    (n : nat) : M (list MessageRow) :=
  try_except
    (select_messages (message_in user_id session_id) (asc m_created_at) n)
    (fun _ => ret []).

Definition get_recent_context (user_id : str) (session_id : option str)
    (n : nat) : M (list ContextRow) :=
  try_except
    (data <- select_messages (message_in user_id session_id)
               (desc m_created_at) n ;;
     match data with
     | _ :: _ => ret (map context_of_row (rev data))
     | [] => ret []
     end)
    (fun _ => ret []).

Definition delete_session (session_id user_id : str) : M bool :=
  try_except
    (session <- get_session_by_id session_id user_id ;;
     match session with
     | None => ret false
     | Some _ =>
         delete_sessions (session_is session_id user_id) ;;;
         ret true
     end)
    (fun e => if table_missing e then ret false else ret false).

Definition delete_all_user_sessions (user_id : str) : M nat :=
  try_except
    (count <- count_sessions (session_of user_id) ;;
     let session_count := match count with Some c => c | None => 0 end in
     if session_count =? 0
     then ret 0
     else delete_sessions (session_of user_id) ;;; ret session_count)
    (fun e => if table_missing e then ret 0 else raise e).

Definition update_session_title (session_id user_id new_title : str) : M bool :=
  try_except
    (session <- get_session_by_id session_id user_id ;;
     match session with
     | None => ret false
     | Some _ =>
         now <- utcnow env ;;
         update_sessions (session_is session_id user_id) new_title now ;;;
         ret true
     end)
    (fun e => if table_missing e then ret false else ret false).

Definition validate_user_token (token : str) : option User :=
  match auth_get_user env token with
  | AuthUser u => Some u
  | AuthNoUser => None
  | AuthRaises _ => None
  end.

End Service.
End supabase_service.

(** ** [OpenAIService] *)

Module openai_service.

(** [OpenAIService.__init__]. [openai.OpenAI(api_key=...)] belongs to
    the completion library: it is a parameter, and what it raises leaves
    the constructor. *)
Definition init {C : Type} (OpenAI : str -> Result C)
    (settings : config.Settings) : Result C :=
  if negb (truthy (config.OPENAI_API_KEY settings))
  then Raise (Exception (lit "OpenAI API key is required"))
  else OpenAI (config.OPENAI_API_KEY settings).

(** [validate_message] *)
Definition validate_message (message : str) : bool :=
  if negb (truthy message) || negb (truthy (strip message))
  then false
  else if 2000 <? length message
  then false
  else true.

Section Service.

Variable env : Env.

Definition history_turns (msg : ContextRow) : list ChatMsg :=
  [ {| role := RoleUser; content := c_user_message msg |};
    {| role := RoleAssistant; content := c_ai_response msg |} ].

Definition build_messages (user_message : str)
    (conversation_history : list ContextRow) : list ChatMsg :=
  [ {| role := RoleSystem; content := SYSTEM_PROMPT env |} ]
  ++ flat_map history_turns (last_n 5 conversation_history)
  ++ [ {| role := RoleUser; content := user_message |} ].

Definition generate_fitness_response (user_message : str)
    (conversation_history : list ContextRow) : M str :=
  let messages := build_messages user_message conversation_history in
  record_prompt messages ;;;
  match completions_create env messages with
  | RateLimitError =>
      raise (Exception
        (lit "OpenAI API rate limit exceeded. Please try again later."))
  | AuthenticationError =>
      raise (Exception
        (lit "OpenAI API authentication failed. Please check your API key."))
  | APIError m => raise (Exception (lit "OpenAI API error: " ++ m))
  | OtherError m =>
      raise (Exception (lit "Failed to generate AI response: " ++ m))
  | Content c =>
      if truthy_opt c
      then ret (strip (match c with Some t => t | None => [] end))
      else raise (Exception
             (lit "Failed to generate AI response: Empty response from OpenAI"))
  end.

Definition get_chat_response (user_message : str)
    (conversation_history : list ContextRow) : M str :=
  generate_fitness_response user_message conversation_history.

End Service.
End openai_service.

(** ** The chat router *)

Module router.
Section Handlers.

Variable env : Env.

(** [except HTTPException: raise] followed by
    [except Exception: raise HTTPException(500, detail)]. *)
Definition reraise_http {A} (detail : str) (c : M A) : M A :=
  try_except c
    (fun e =>
       match e with
       | HTTPException _ _ => raise e
       | Exception _ => raise (HTTPException 500 detail)
       end).

(** [except Exception: raise HTTPException(500, detail)] alone. *)
Definition all_to_500 {A} (detail : str) (c : M A) : M A :=
  try_except c (fun _ => raise (HTTPException 500 detail)).

Definition not_found : exn :=
  HTTPException 404 (lit "Session not found or does not belong to current user").

Definition get_current_user (authorization : option str) : M User :=
  match authorization with
  | None => raise (HTTPException 401 (lit "Authorization header required"))
  | Some authorization =>
      if negb (truthy authorization)
      then raise (HTTPException 401 (lit "Authorization header required"))
      else
        try_except
          (let token := replace (lit "Bearer ") [] authorization in
           match supabase_service.validate_user_token env token with
           | None => raise (HTTPException 401 (lit "Invalid or expired token"))
           | Some user_info => ret user_info
           end)
          (fun _ => raise (HTTPException 401 (lit "Authentication failed")))
  end.

(** [if request.session_id: ... if not session: raise HTTPException(404)] *)
Definition validate_session (session_id : option str) (user_id : str) : M unit :=
  match session_id with
  | Some sid =>
      if truthy sid
      then session <- supabase_service.get_session_by_id env sid user_id ;;
           match session with
           | None => raise not_found
           | Some _ => ret tt
           end
      else ret tt
  | None => ret tt
  end.

(** [request.message[:50].strip()], with ["..."] added when the message is
    longer than 50 characters. *)
Definition auto_title (msg : str) : str :=
  strip (firstn 50 msg) ++ (if 50 <? length msg then lit "..." else []).

(** The auto-title step of [send_chat_message]. *)
Definition auto_update_title (final_session_id : option str)
    (user_id msg : str) : M (option str) :=
  match final_session_id with
  | Some fsid =>
      if truthy fsid
      then
        current_session <- supabase_service.get_session_by_id env fsid user_id ;;
        match current_session with
        | Some cur =>
            if eqb (s_title cur) (lit "New Chat") && (s_message_count cur =? 1)
            then
              let new_title := auto_title msg in
              supabase_service.update_session_title env fsid user_id new_title ;;;
              ret (Some new_title)
            else ret None
        | None => ret None
        end
      else ret None
  | None => ret None
  end.

Definition send_chat_message (request : ChatRequest) (user : User)
  : M ChatResponse :=
  reraise_http (lit "Failed to process chat message")
    (validate_session (rq_session_id request) (u_id user) ;;;
     context_messages <-
       supabase_service.get_recent_context env (u_id user) (rq_session_id request) 5 ;;
     ai_response <- openai_service.get_chat_response env (rq_message request) context_messages ;;
     stored_message <-
       supabase_service.log_chat_message env (u_id user) (rq_message request) ai_response
         (rq_session_id request) ;;
     let final_session_id :=
       dict_get (d_session_id stored_message) (rq_session_id request) in
     updated_title <-
       auto_update_title final_session_id (u_id user) (rq_message request) ;;
     ret {| r_message := ai_response;
            r_timestamp := d_created_at stored_message;
            r_session_id := final_session_id;
            r_session_title := updated_title |}).

(** The turn up to the completion call, and the turn after it: the two
    halves of [send_chat_message], named for the statements below. *)
Definition turn_reply (request : ChatRequest) (user : User) : M str :=
  validate_session (rq_session_id request) (u_id user) ;;;
  context_messages <-
    supabase_service.get_recent_context env (u_id user) (rq_session_id request) 5 ;;
  openai_service.get_chat_response env (rq_message request) context_messages.

Definition turn_persist (request : ChatRequest) (user : User)
    (ai_response : str) : M ChatResponse :=
  stored_message <-
    supabase_service.log_chat_message env (u_id user) (rq_message request)
      ai_response (rq_session_id request) ;;
  let final_session_id :=
    dict_get (d_session_id stored_message) (rq_session_id request) in
  updated_title <-
    auto_update_title final_session_id (u_id user) (rq_message request) ;;
  ret {| r_message := ai_response;
         r_timestamp := d_created_at stored_message;
         r_session_id := final_session_id;
         r_session_title := updated_title |}.

Definition chat_session_model (s : SessionRow) : ChatSession :=
  {| cs_id := s_id s; cs_user_id := s_user_id s; cs_title := s_title s;
     cs_created_at := s_created_at s; cs_updated_at := s_updated_at s;
     cs_message_count := s_message_count s |}.

(** [title=request.title or "New Chat"] *)
Definition create_chat_session (request : CreateSessionRequest)
    (user : User) : M ChatSession :=
  all_to_500 (lit "Failed to create chat session")
    (session <- supabase_service.create_chat_session env (u_id user)
                  (if truthy_opt (rq_title request)
                   then match rq_title request with Some t => t | None => [] end
                   else lit "New Chat") ;;
     ret (chat_session_model session)).

Definition get_user_sessions (user : User) (n : nat) : M (list ChatSession) :=
  all_to_500 (lit "Failed to retrieve chat sessions")
    (sessions <- supabase_service.get_user_sessions env (u_id user) n ;;
     ret (map chat_session_model sessions)).

(** [ChatHistory(...)] requires a [session_id] that is a string. *)
Definition chat_history_model (msg : MessageRow) : M ChatHistory :=
  match m_session_id msg with
  | Some sid =>
      ret {| h_id := m_id msg; h_user_id := m_user_id msg; h_session_id := sid;
             h_user_message := m_user_message msg;
             h_ai_response := m_ai_response msg;
             h_created_at := m_created_at msg |}
  | None => raise (Exception (lit "1 validation error for ChatHistory"))
  end.

Definition get_session_history (session_id : str) (user : User) (n : nat)
  : M (list ChatHistory) :=
  reraise_http (lit "Failed to retrieve session history")
    (session <- supabase_service.get_session_by_id env session_id (u_id user) ;;
     match session with
     | None => raise not_found
     | Some _ =>
         history <- supabase_service.get_chat_history env (u_id user) (Some session_id) n ;;
         mapM chat_history_model history
     end).

Definition delete_chat_session (session_id : str) (user : User)
  : M DeleteResponse :=
  reraise_http (lit "Failed to delete session")
    (success <- supabase_service.delete_session env session_id (u_id user) ;;
     if negb success
     then raise not_found
     else ret {| del_message := lit "Session deleted successfully" |}).

Definition delete_all_chat_sessions (user : User) : M DeleteAllResponse :=
  all_to_500 (lit "Failed to delete all sessions")
    (count <- supabase_service.delete_all_user_sessions env (u_id user) ;;
     ret {| da_message :=
              lit "Successfully deleted " ++ str_of_nat count
              ++ lit " chat sessions";
            deleted_count := count |}).

Definition get_chat_history (n : nat) (session_id : option str)
    (user : User) : M (list ChatHistory) :=
  reraise_http (lit "Failed to retrieve chat history")
    (validate_session session_id (u_id user) ;;;
     history <- supabase_service.get_chat_history env (u_id user) session_id n ;;
     mapM chat_history_model history).

End Handlers.
End router.

(** A world with the given tables, at the start of a run. *)
Definition world (sessions : list SessionRow) (messages : list MessageRow)
  : World :=
  {| chat_sessions := sessions; chat_messages := messages; step := 0;
     prompts := [] |}.

(** An environment whose completion provider answers every prompt with
    [reply] and whose datastore follows the fault schedule [faults]. *)
Definition sample_env (reply : str) (faults : nat -> option Fault) : Env :=
  {| SYSTEM_PROMPT := lit "You are a helpful and knowledgeable AI assistant";
     uuid4_value := fun k => N.of_nat (1000 + k);
     utcnow_value := fun k => 100 + k;
     fault_at := faults;
     completions_create := fun _ => Content (Some reply);
     auth_get_user := fun _ => AuthNoUser |}.

(** The datastore answers every request. *)
Definition healthy_env (reply : str) : Env := sample_env reply (fun _ => None).

(** The datastore raises on the request at position [k] of the run. *)
Definition fails_at (k : nat) : nat -> option Fault :=
  fun i => if i =? k then Some (Raises (lit "connection refused")) else None.

(** The datastore answers the request at position [k] with no data. *)
Definition blank_at (k : nat) : nat -> option Fault :=
  fun i => if i =? k then Some Blank else None.

(** The datastore raises on every request from position [k] on. *)
Definition fails_from (k : nat) : nat -> option Fault :=
  fun i => if k <=? i then Some (Raises (lit "connection refused")) else None.

Definition alice : User :=
  {| u_id := lit "alice"; u_email := lit "alice@example.com"; u_created_at := 1 |}.

Definition bob : User :=
  {| u_id := lit "bob"; u_email := lit "bob@example.com"; u_created_at := 2 |}.

Definition bob_session : SessionRow :=
  {| s_id := uuid_str 7; s_user_id := lit "bob"; s_title := lit "Leg day";
     s_created_at := 10; s_updated_at := 20; s_message_count := 1 |}.

Definition bob_message : MessageRow :=
  {| m_id := uuid_str 8; m_user_id := lit "bob";
     m_session_id := Some (uuid_str 7); m_user_message := lit "Squats?";
     m_ai_response := lit "Three sets of five."; m_created_at := 15 |}.

Definition alice_session : SessionRow :=
  {| s_id := uuid_str 42; s_user_id := lit "alice"; s_title := lit "New Chat";
     s_created_at := 1; s_updated_at := 1; s_message_count := 0 |}.

(** A session of Alice that still has the sentinel title after three
    messages. *)
Definition alice_busy_session : SessionRow :=
  {| s_id := uuid_str 43; s_user_id := lit "alice"; s_title := lit "New Chat";
     s_created_at := 1; s_updated_at := 5; s_message_count := 3 |}.

(** A record of Alice's session written at time [t]. *)
Definition alice_message (t : nat) : MessageRow :=
  {| m_id := uuid_str (N.of_nat (100 + t)); m_user_id := lit "alice";
     m_session_id := Some (uuid_str 42); m_user_message := str_of_nat t;
     m_ai_response := lit "ok"; m_created_at := t |}.

Definition six_messages : list MessageRow :=
  map alice_message [3; 1; 6; 2; 5; 4].

(** ** Vocabulary of the statements *)

(** The world after one more oracle call. *)
Definition bump (w : World) : World :=
  {| chat_sessions := chat_sessions w; chat_messages := chat_messages w;
     step := S (step w); prompts := prompts w |}.

(** The ellipsis marker of a title: present when the message is longer than
    50 characters. *)
Definition ellipsis (msg : str) : str :=
  if 50 <? length msg then lit "..." else [].

(** The string neither begins nor ends with a whitespace character. *)
Definition no_edge_space (s : str) : bool :=
  match s with
  | [] => true
  | c :: _ => negb (isspace c) && negb (isspace (last s c))
  end.

Definition newest_first {A} (key : A -> nat) : list A -> Prop :=
  StronglySorted (fun x y => key y <= key x).

Definition oldest_first {A} (key : A -> nat) : list A -> Prop :=
  StronglySorted (fun x y => key x <= key y).

(** Oldest first. *)
Definition chronological (l : list MessageRow) : Prop :=
  oldest_first m_created_at l.

(** Every record of [older] is at most as recent as every record of
    [recent]. *)
Definition not_after (older recent : list MessageRow) : Prop :=
  forall o r, In o older -> In r recent -> m_created_at o <= m_created_at r.

(** The datastore answers every request of the run. *)
Definition datastore_healthy (env : Env) : Prop :=
  forall k, fault_at env k = None.

(** The completion provider answers every prompt with the text [c]. *)
Definition provider_replies (env : Env) (c : str) : Prop :=
  forall p, completions_create env p = Content (Some c).

(** The identifiers the generator hands out are not those of stored
    sessions. *)
Definition fresh_ids (env : Env) (w : World) : Prop :=
  forall k s, In s (chat_sessions w) -> s_id s <> uuid_str (uuid4_value env k).

(** No stored session has this identifier and this owner: the session does
    not exist, or belongs to someone else. *)
Definition not_owned (sid uid : str) (w : World) : Prop :=
  forall s, In s (chat_sessions w) -> s_id s = sid -> s_user_id s <> uid.

(** What [get_session_by_id] finds: the one stored session with this
    identifier and owner, when the datastore answers. *)
Definition session_lookup (env : Env) (sid uid : str) (w : World)
  : option SessionRow :=
  match fault_at env (step w) with
  | Some _ => None
  | None =>
      match filter (supabase_service.session_is sid uid) (chat_sessions w) with
      | [r] => Some r
      | _ => None
      end
  end.

(** The records [get_recent_context] selects, before the projection to its
    two columns. *)
Definition recent_rows (uid : str) (sid : option str) (n : nat) (w : World)
  : list MessageRow :=
  rev (limit n (order_by (desc m_created_at)
                  (filter (supabase_service.message_in uid sid)
                     (chat_messages w)))).

(** The computation returns, in every world, a value that satisfies [Q]. *)
Definition returns {A} (c : M A) (Q : A -> Prop) : Prop :=
  forall w, exists a w', c w = (Ok a, w') /\ Q a.

(** The computation takes every world to one related to it by [R], whether
    it returns or raises. *)
Definition preserves {A} (R : World -> World -> Prop) (c : M A) : Prop :=
  forall w, R w (snd (c w)).

Definition same_prompts (w w' : World) : Prop := prompts w' = prompts w.

Definition same_sessions (w w' : World) : Prop :=
  chat_sessions w' = chat_sessions w.

(** Every session of [w] is still stored in [w'], with its identifier, owner
    and title. *)
Definition titles_kept (w w' : World) : Prop :=
  forall s, In s (chat_sessions w) ->
    exists s', In s' (chat_sessions w') /\ s_id s' = s_id s
               /\ s_user_id s' = s_user_id s /\ s_title s' = s_title s.

(** The session row that [create_chat_session] writes when its first oracle
    call is at position [k] of the run. *)
Definition created_session (env : Env) (uid ttl : str) (k : nat)
  : SessionRow :=
  {| s_id := uuid_str (uuid4_value env k); s_user_id := uid; s_title := ttl;
     s_created_at := utcnow_value env (1 + k);
     s_updated_at := utcnow_value env (2 + k);
     s_message_count := 0 |}.

(** The message dict that [log_chat_message] builds for session [sid] when
    the identifier of the message is drawn at position [k] of the run. *)
Definition logged_message (env : Env) (uid msg ai sid : str) (k : nat)
  : MessageDict :=
  {| d_id := uuid_str (uuid4_value env k); d_user_id := uid;
     d_session_id := Val sid; d_user_message := msg; d_ai_response := ai;
     d_created_at := utcnow_value env (1 + k) |}.

(** A session row after its first message has been counted. *)
Definition counted (s : SessionRow) : SessionRow :=
  {| s_id := s_id s; s_user_id := s_user_id s; s_title := s_title s;
     s_created_at := s_created_at s; s_updated_at := s_updated_at s;
     s_message_count := S (s_message_count s) |}.

(** A session row renamed at time [now]. *)
Definition renamed (ttl : str) (now : timestamp) (s : SessionRow)
  : SessionRow :=
  {| s_id := s_id s; s_user_id := s_user_id s; s_title := ttl;
     s_created_at := s_created_at s; s_updated_at := now;
     s_message_count := s_message_count s |}.

(** The session a healthy first turn leaves behind, when the turn's
    persistence starts at position [k] of the run: created with the title of
    the message, counted once, and renamed when that title is the sentinel. *)
Definition first_turn_session (env : Env) (uid msg : str) (k : nat)
  : SessionRow :=
  let row :=
    counted (created_session env uid (supabase_service.session_title msg) k) in
  if eqb (supabase_service.session_title msg) (lit "New Chat")
  then renamed (router.auto_title msg) (utcnow_value env (9 + k)) row
  else row.

(** The user owns no session. *)
Definition no_sessions (uid : str) (w : World) : Prop :=
  forall s, In s (chat_sessions w) -> s_user_id s <> uid.

(** The message records of a session of the user. *)
Definition session_messages (uid sid : str) (w : World) : list MessageRow :=
  filter (fun m => eqb (m_user_id m) uid
                   && match m_session_id m with
                      | Some s => eqb s sid
                      | None => false
                      end)
    (chat_messages w).


(** The variables the configuration requires, in the order in which an
    error lists them, each with its value. *)
Definition required_variables (s : config.Settings) : list (str * str) :=
  [ (lit "OPENAI_API_KEY", config.OPENAI_API_KEY s);
    (lit "SUPABASE_URL", config.SUPABASE_URL s);
    (lit "SUPABASE_ANON_KEY", config.SUPABASE_ANON_KEY s) ].

(** The names of the required variables that are unset. *)
Definition unset_variables (s : config.Settings) : list str :=
  map fst (filter (fun p => negb (truthy (snd p))) (required_variables s)).

(** A datastore library that accepts URLs of at least 8 characters, for
    the examples. *)
Definition sample_create_client (url key : str)
  : Result supabase_service.Client :=
  if 8 <=? length url
  then Ok {| supabase_service.client_url := url;
             supabase_service.client_key := key |}
  else Raise (Exception (lit "Invalid URL")).

(** The completion call does not produce a non-empty text. *)
Definition api_failed (o : ApiOutcome) : bool :=
  match o with
  | Content c => negb (truthy_opt c)
  | _ => true
  end.

(** Both tables are the same in the two worlds. *)
Definition same_tables (w w' : World) : Prop :=
  chat_sessions w' = chat_sessions w /\ chat_messages w' = chat_messages w.

(** The computation leaves a component of the world as it is, whether it
    returns or raises. *)
Definition keeps {A B} (proj : World -> B) (c : M A) : Prop :=
  forall w, proj (snd (c w)) = proj w.

(** The computation leaves both tables as they are. *)
Definition reads_only {A} (c : M A) : Prop :=
  keeps chat_sessions c /\ keeps chat_messages c.

(** The [ChatHistory] entry of a message record of session [sid]. *)
Definition history_entry (sid : str) (m : MessageRow) : ChatHistory :=
  {| h_id := m_id m; h_user_id := m_user_id m; h_session_id := sid;
     h_user_message := m_user_message m; h_ai_response := m_ai_response m;
     h_created_at := m_created_at m |}.

(** Every session of [w] is still stored in [w'], with its identifier, owner
    and creation time. *)
Definition owners_kept (w w' : World) : Prop :=
  forall s, In s (chat_sessions w) ->
    exists s', In s' (chat_sessions w') /\ s_id s' = s_id s
               /\ s_user_id s' = s_user_id s
               /\ s_created_at s' = s_created_at s.

(** The sessions of the user. *)
Definition user_sessions (uid : str) (w : World) : list SessionRow :=
  filter (fun s => eqb (s_user_id s) uid) (chat_sessions w).

(** The rows [get_chat_history] selects. *)
Definition history_rows (uid : str) (sid : option str) (n : nat) (w : World)
  : list MessageRow :=
  limit n (order_by (asc m_created_at)
             (filter (supabase_service.message_in uid sid) (chat_messages w))).

(** The rows [get_user_sessions] selects. *)
Definition listed_sessions (uid : str) (n : nat) (w : World)
  : list SessionRow :=
  limit n (order_by (desc s_updated_at) (user_sessions uid w)).

(** A relation between worlds that every oracle call and every write to
    [chat_messages] respects. *)
Class Frame (R : World -> World -> Prop) : Prop := {
  frame_refl : forall w, R w w;
  frame_trans : forall a b c, R a b -> R b c -> R a c;
  frame_tick : forall w, R w (bump w);
  frame_messages : forall f w, R w (snd (set_messages f w))
}.

(** * Properties *)

(** ** Strings *)

Lemma eqb_eq (a b : str) : eqb a b = true <-> a = b.
Proof.
  revert b; induction a as [|x a IH]; intros [|y b]; simpl; split;
    try congruence; try reflexivity.
  - intros H. apply andb_true_iff in H as [Hx Hr].
    apply N.eqb_eq in Hx. apply IH in Hr. congruence.
  - intros H. injection H as -> ->.
    apply andb_true_iff; split; [apply N.eqb_refl | now apply IH].
Qed.

Lemma eqb_refl (a : str) : eqb a a = true.
Proof. now apply eqb_eq. Qed.

Lemma eqb_neq (a b : str) : eqb a b = false <-> a <> b.
Proof.
  split.
  - intros H E. apply eqb_eq in E. congruence.
  - intros H. destruct (eqb a b) eqn:E; [|reflexivity].
    apply eqb_eq in E. contradiction.
Qed.

Lemma startswith_app (p s : str) : startswith p (p ++ s) = true.
Proof.
  induction p as [|x p IH]; simpl; [reflexivity|].
  now rewrite N.eqb_refl, IH.
Qed.

Lemma startswith_long (p x y : str) :
  length p <= length x -> startswith p (x ++ y) = startswith p x.
Proof.
  revert x; induction p as [|c p IH]; intros [|d x] Hl; simpl in *;
    try reflexivity; try lia.
  rewrite IH by lia. reflexivity.
Qed.

Lemma startswith_nth (p s : str) (i : nat) (d : char) :
  startswith p s = true -> i < length p -> nth i s d = nth i p d.
Proof.
  revert s i; induction p as [|c p IH]; intros [|e s] i H Hi; simpl in *;
    try lia; try discriminate.
  apply andb_true_iff in H as [Hc Hr]. apply N.eqb_eq in Hc.
  destruct i as [|i]; [congruence|]. apply IH; [assumption | lia].
Qed.

Lemma contains_cons (p : str) (c : char) (s : str) :
  contains p (c :: s) = false ->
  startswith p (c :: s) = false /\ contains p s = false.
Proof.
  simpl. intros H. apply orb_false_iff in H as [H1 H2]. split; assumption.
Qed.

Lemma contains_startswith (p s : str) :
  contains p s = false -> startswith p s = false.
Proof.
  destruct s; simpl; intros H; apply orb_false_iff in H; tauto.
Qed.

Lemma replace_from_skip (old new : str) (k : nat) (s : str) :
  replace_from old new k s = replace_from old new 0 (skipn k s).
Proof.
  revert k; induction s as [|c s IH]; intros [|k]; try reflexivity.
  simpl skipn. rewrite <- IH. reflexivity.
Qed.

Lemma replace_from_match (o : char) (old new s : str) :
  startswith (o :: old) s = true ->
  replace_from (o :: old) new 0 s
  = new ++ replace_from (o :: old) new 0 (skipn (length (o :: old)) s).
Proof.
  destruct s as [|c s]; [discriminate|]. intros H.
  change (replace_from (o :: old) new 0 (c :: s))
    with (if startswith (o :: old) (c :: s)
          then new ++ replace_from (o :: old) new (length (o :: old) - 1) s
          else c :: replace_from (o :: old) new 0 s).
  rewrite H, replace_from_skip. simpl. now rewrite Nat.sub_0_r.
Qed.

Lemma replace_from_miss (old new : str) (c : char) (s : str) :
  startswith old (c :: s) = false ->
  replace_from old new 0 (c :: s) = c :: replace_from old new 0 s.
Proof.
  intros H.
  change (replace_from old new 0 (c :: s))
    with (if startswith old (c :: s)
          then new ++ replace_from old new (length old - 1) s
          else c :: replace_from old new 0 s).
  now rewrite H.
Qed.

Lemma replace_from_absent (old new s : str) :
  contains old s = false -> replace_from old new 0 s = s.
Proof.
  induction s as [|c s IH]; [reflexivity|]. intros H.
  apply contains_cons in H as [H1 H2].
  rewrite replace_from_miss by assumption. now rewrite IH.
Qed.

Lemma startswith_prefix (p x y : str) :
  startswith p x = true -> startswith p (x ++ y) = true.
Proof.
  revert x; induction p as [|c p IH]; intros [|d x] H; simpl in *;
    try reflexivity; try discriminate.
  apply andb_true_iff in H as [H1 H2]. rewrite H1. now apply IH.
Qed.

Lemma startswith_split (p s : str) :
  startswith p s = true -> s = p ++ skipn (length p) s.
Proof.
  revert s; induction p as [|c p IH]; intros [|d s] H; simpl in *;
    try reflexivity; try discriminate.
  apply andb_true_iff in H as [H1 H2]. apply N.eqb_eq in H1.
  f_equal; [congruence | now apply IH].
Qed.

(** A pattern whose first character does not occur again in it cannot
    match across the end of a text that is followed by the pattern. *)
Lemma startswith_straddle (b : char) (p x y : str) :
  ~ In b p -> x <> [] ->
  startswith (b :: p) (x ++ (b :: p) ++ y) = true ->
  startswith (b :: p) x = true.
Proof.
  intros Hb Hx H.
  destruct (le_lt_dec (length (b :: p)) (length x)) as [Hl|Hl].
  - now rewrite startswith_long in H.
  - exfalso. apply Hb.
    pose proof (startswith_nth _ _ (length x) 0%N H Hl) as E.
    rewrite app_nth2, Nat.sub_diag in E by lia. simpl in E.
    destruct x as [|c x]; [congruence|]. simpl in E, Hl.
    rewrite E. apply nth_In. lia.
Qed.

Lemma replace_segment (b : char) (p x rest : str) :
  ~ In b p -> contains (b :: p) x = false ->
  replace_from (b :: p) [] 0 (x ++ (b :: p) ++ rest)
  = x ++ replace_from (b :: p) [] 0 rest.
Proof.
  intros Hb. induction x as [|c x IH]; intros Hx.
  - rewrite app_nil_l, replace_from_match by apply startswith_app.
    rewrite skipn_app, skipn_all, Nat.sub_diag. reflexivity.
  - apply contains_cons in Hx as [H1 H2].
    change ((c :: x) ++ (b :: p) ++ rest) with (c :: (x ++ (b :: p) ++ rest)).
    rewrite replace_from_miss.
    + rewrite IH by assumption. reflexivity.
    + destruct (startswith (b :: p) (c :: x ++ (b :: p) ++ rest)) eqn:E;
        [|reflexivity].
      apply (startswith_straddle b p (c :: x) rest Hb) in E;
        [congruence | discriminate].
Qed.

Lemma replace_join (b : char) (p : str) (parts : list str) :
  ~ In b p ->
  Forall (fun x => contains (b :: p) x = false) parts ->
  replace_from (b :: p) [] 0 (join (b :: p) parts) = concat parts.
Proof.
  intros Hb. induction parts as [|x parts IH]; intros HF; [reflexivity|].
  inversion HF as [|? ? Hx Hr]; subst.
  destruct parts as [|y parts].
  - simpl. rewrite app_nil_r. now apply replace_from_absent.
  - change (join (b :: p) (x :: y :: parts))
      with (x ++ (b :: p) ++ join (b :: p) (y :: parts)).
    rewrite replace_segment by assumption.
    rewrite IH by assumption. reflexivity.
Qed.

Lemma contains_split (b : char) (p s : str) :
  contains (b :: p) s = true ->
  exists x rest, s = x ++ (b :: p) ++ rest /\ contains (b :: p) x = false.
Proof.
  induction s as [|c s IH]; [discriminate|]. intros H.
  destruct (startswith (b :: p) (c :: s)) eqn:E.
  - exists [], (skipn (length (b :: p)) (c :: s)). split; [|reflexivity].
    now apply startswith_split.
  - change (contains (b :: p) (c :: s))
      with (startswith (b :: p) (c :: s) || contains (b :: p) s) in H.
    rewrite E in H. simpl orb in H.
    destruct (IH H) as (x & rest & -> & Hx).
    exists (c :: x), rest. split; [reflexivity|].
    change (contains (b :: p) (c :: x))
      with (startswith (b :: p) (c :: x) || contains (b :: p) x).
    rewrite Hx, orb_false_r.
    destruct (startswith (b :: p) (c :: x)) eqn:E'; [|reflexivity].
    apply (startswith_prefix _ _ ((b :: p) ++ rest)) in E'.
    change ((c :: x) ++ (b :: p) ++ rest)
      with (c :: x ++ (b :: p) ++ rest) in E'.
    congruence.
Qed.

(** Every text is a sequence of pattern-free parts joined by the pattern. *)
Lemma join_decomposition (b : char) (p s : str) :
  exists parts,
    parts <> [] /\ Forall (fun x => contains (b :: p) x = false) parts
    /\ s = join (b :: p) parts.
Proof.
  remember (length s) as n eqn:Hn. revert s Hn.
  induction n as [n IH] using lt_wf_ind. intros s Hn.
  destruct (contains (b :: p) s) eqn:E.
  - destruct (contains_split b p s E) as (x & rest & -> & Hx).
    destruct (IH (length rest)) with (s := rest) as (parts & Hne & HF & Hj);
      [rewrite Hn, !length_app; simpl; lia | reflexivity |].
    exists (x :: parts). split; [discriminate|]. split; [now constructor|].
    destruct parts as [|y parts]; [congruence|].
    change (join (b :: p) (x :: y :: parts))
      with (x ++ (b :: p) ++ join (b :: p) (y :: parts)).
    now rewrite <- Hj.
  - exists [s]. split; [discriminate|]. split; [|reflexivity].
    constructor; [assumption | constructor].
Qed.

Lemma lstrip_length (s : str) : length (lstrip s) <= length s.
Proof.
  induction s as [|c s IH]; simpl; [lia|].
  destruct (isspace c); simpl; lia.
Qed.

Lemma rstrip_length (s : str) : length (rstrip s) <= length s.
Proof.
  unfold rstrip. rewrite length_rev.
  pose proof (lstrip_length (rev s)) as H. now rewrite length_rev in H.
Qed.

Lemma lstrip_keep (c : char) (s : str) :
  isspace c = false -> lstrip (c :: s) = c :: s.
Proof. intros H. simpl. now rewrite H. Qed.

Lemma lstrip_drop (c : char) (s : str) :
  isspace c = true -> lstrip (c :: s) = lstrip s.
Proof. intros H. simpl. now rewrite H. Qed.

Lemma rev_last (c : char) (s : str) :
  rev (c :: s) = last (c :: s) c :: rev (removelast (c :: s)).
Proof.
  assert (H : c :: s <> []) by discriminate.
  rewrite (app_removelast_last c H) at 1.
  now rewrite rev_app_distr.
Qed.

Lemma removelast_length (c : char) (s : str) :
  length (removelast (c :: s)) < length (c :: s).
Proof.
  assert (H : c :: s <> []) by discriminate.
  pose proof (f_equal (@length char) (app_removelast_last c H)) as E.
  rewrite length_app in E. simpl length in E at 3. lia.
Qed.

(** [strip] leaves a string alone exactly when it has no whitespace at
    either end. *)
Lemma strip_fixed (s : str) : strip s = s <-> no_edge_space s = true.
Proof.
  destruct s as [|c s]; [split; reflexivity|].
  unfold strip, no_edge_space. split.
  - intros H. destruct (isspace c) eqn:Ec.
    + exfalso. apply (f_equal (@length char)) in H.
      pose proof (rstrip_length (lstrip (c :: s))) as H1.
      rewrite lstrip_drop in H, H1 by assumption.
      pose proof (lstrip_length s). simpl in H. lia.
    + rewrite lstrip_keep in H by assumption.
      destruct (isspace (last (c :: s) c)) eqn:El; [|reflexivity].
      exfalso. unfold rstrip in H. apply (f_equal (@length char)) in H.
      rewrite length_rev, rev_last, lstrip_drop in H by assumption.
      pose proof (lstrip_length (rev (removelast (c :: s)))) as H1.
      rewrite length_rev in H1.
      pose proof (removelast_length c s). lia.
  - intros H. apply andb_true_iff in H as [Hc Hl].
    apply negb_true_iff in Hc, Hl.
    rewrite lstrip_keep by assumption. unfold rstrip.
    rewrite rev_last, lstrip_keep by assumption.
    rewrite <- rev_last. apply rev_involutive.
Qed.

Lemma bearer_unbordered :
  exists p, lit "Bearer " = 66%N :: p /\ ~ In 66%N p.
Proof.
  eexists. split; [reflexivity|].
  simpl. intuition discriminate.
Qed.

Lemma uuid_str_length (u : N) : length (uuid_str u) = 36.
Proof. reflexivity. Qed.

Lemma uuid_str_truthy (u : N) : truthy (uuid_str u) = true.
Proof. reflexivity. Qed.

(** ** The two title rules *)

Lemma session_title_ellipsis (msg : str) :
  supabase_service.session_title msg = firstn 50 msg ++ ellipsis msg.
Proof.
  unfold supabase_service.session_title, ellipsis.
  destruct (50 <? length msg) eqn:E; [reflexivity|].
  apply Nat.ltb_ge in E. rewrite firstn_all2 by lia. now rewrite app_nil_r.
Qed.

(** C5, amended. The title given at session creation is the first 50
    characters of the message, followed by the ellipsis marker exactly when
    the message is longer than 50 characters. The title of the auto-rename
    branch is the same with leading and trailing whitespace removed from
    those first 50 characters. The two agree exactly when the first 50
    characters neither begin nor end with whitespace. *)
Theorem title_rules_agree_without_edge_whitespace (msg : str) :
  supabase_service.session_title msg = firstn 50 msg ++ ellipsis msg
  /\ router.auto_title msg = strip (firstn 50 msg) ++ ellipsis msg
  /\ (router.auto_title msg = supabase_service.session_title msg
      <-> no_edge_space (firstn 50 msg) = true).
Proof.
  split; [apply session_title_ellipsis|]. split; [reflexivity|].
  rewrite session_title_ellipsis. unfold router.auto_title. fold (ellipsis msg).
  rewrite <- strip_fixed. split.
  - apply app_inv_tail.
  - intros ->. reflexivity.
Qed.

(** C5 as stated fails: for the message [" Hello"] the auto-rename branch
    computes ["Hello"], session creation computes [" Hello"]. *)
Lemma title_rules_differ_on_leading_space :
  router.auto_title (lit " Hello") = lit "Hello"
  /\ supabase_service.session_title (lit " Hello") = lit " Hello"
  /\ router.auto_title (lit " Hello")
     <> supabase_service.session_title (lit " Hello").
Proof.
  split; [reflexivity|]. split; [reflexivity|].
  vm_compute. discriminate.
Qed.

(** ** The authentication dependency *)

(** C10. For a non-empty [Authorization] value, the dependency hands to
    token validation the value with every occurrence of ["Bearer "] removed,
    wherever it stands: writing the value as parts free of ["Bearer "]
    joined by ["Bearer "] (which is always possible), the token is the
    concatenation of the parts. A value without ["Bearer "] is the token
    as it is; the handler does not reject it. *)
Theorem bearer_removed_everywhere
    (env : Env) (authorization : str) (w : World) :
  authorization <> [] ->
  router.get_current_user env (Some authorization) w
  = (match supabase_service.validate_user_token env
             (replace (lit "Bearer ") [] authorization) with
     | Some u => Ok u
     | None => Raise (HTTPException 401 (lit "Authentication failed"))
     end, w)
  /\ (exists parts,
        Forall (fun x => contains (lit "Bearer ") x = false) parts
        /\ authorization = join (lit "Bearer ") parts)
  /\ (forall parts,
        Forall (fun x => contains (lit "Bearer ") x = false) parts ->
        authorization = join (lit "Bearer ") parts ->
        replace (lit "Bearer ") [] authorization = concat parts)
  /\ (contains (lit "Bearer ") authorization = false ->
      replace (lit "Bearer ") [] authorization = authorization).
Proof.
  intros Hne. destruct bearer_unbordered as (p & Hb & Hp).
  split; [|split; [|split]].
  - unfold router.get_current_user.
    destruct authorization as [|c a]; [contradiction|].
    simpl truthy. simpl negb. cbv iota. unfold try_except.
    destruct (supabase_service.validate_user_token env _); reflexivity.
  - rewrite Hb. destruct (join_decomposition 66%N p authorization)
      as (parts & _ & HF & Hj).
    now exists parts.
  - intros parts HF ->. rewrite Hb in *. now apply replace_join.
  - intros H. rewrite Hb in *. now apply replace_from_absent.
Qed.

Lemma bearer_removed_everywhere_witness :
  lit "Bearer Bearer abc" <> []
  /\ router.get_current_user (healthy_env []) (Some (lit "Bearer Bearer abc"))
       (world [] [])
     = (match supabase_service.validate_user_token (healthy_env [])
                (replace (lit "Bearer ") [] (lit "Bearer Bearer abc")) with
        | Some u => Ok u
        | None => Raise (HTTPException 401 (lit "Authentication failed"))
        end, world [] []).
Proof.
  split; [discriminate|].
  apply (bearer_removed_everywhere (healthy_env []) (lit "Bearer Bearer abc")
           (world [] [])).
  discriminate.
Defined.

Example bearer_inside_token :
  replace (lit "Bearer ") [] (lit "abcBearer defBearer ") = lit "abcdef".
Proof. reflexivity. Qed.

Example bearer_missing :
  replace (lit "Bearer ") [] (lit "Basic abc") = lit "Basic abc".
Proof. reflexivity. Qed.

(** ** Running computations *)

Lemma bind_ok {A B} (c : M A) (k : A -> M B) (w w' : World) (a : A) :
  c w = (Ok a, w') -> bind c k w = k a w'.
Proof. unfold bind. now intros ->. Qed.

Lemma bind_raise {A B} (c : M A) (k : A -> M B) (w w' : World) (e : exn) :
  c w = (Raise e, w') -> bind c k w = (Raise e, w').
Proof. unfold bind. now intros ->. Qed.

Lemma try_ok {A} (c : M A) (h : exn -> M A) (w w' : World) (a : A) :
  c w = (Ok a, w') -> try_except c h w = (Ok a, w').
Proof. unfold try_except. now intros ->. Qed.

Lemma try_raise {A} (c : M A) (h : exn -> M A) (w w' : World) (e : exn) :
  c w = (Raise e, w') -> try_except c h w = h e w'.
Proof. unfold try_except. now intros ->. Qed.

Lemma bind_assoc {A B C} (c : M A) (k : A -> M B) (h : B -> M C) (w : World) :
  bind (bind c k) h w = bind c (fun a => bind (k a) h) w.
Proof. unfold bind. destruct (c w) as [[a|e] w']; reflexivity. Qed.

Lemma tick_run (w : World) : tick w = (Ok (step w), bump w).
Proof. reflexivity. Qed.

(** *** Computations that always return *)

Lemma returns_ret {A} (a : A) (Q : A -> Prop) : Q a -> returns (ret a) Q.
Proof. intros H w. now exists a, w. Qed.

Lemma returns_bind {A B} (c : M A) (k : A -> M B)
    (P : A -> Prop) (Q : B -> Prop) :
  returns c P -> (forall a, P a -> returns (k a) Q) -> returns (bind c k) Q.
Proof.
  intros Hc Hk w. destruct (Hc w) as (a & w1 & E & Pa).
  destruct (Hk a Pa w1) as (b & w2 & E2 & Qb).
  exists b, w2. split; [|assumption]. now rewrite (bind_ok _ _ _ _ _ E).
Qed.

Lemma returns_try {A} (c : M A) (h : exn -> M A) :
  (forall e, returns (h e) (fun _ => True)) ->
  returns (try_except c h) (fun _ => True).
Proof.
  intros Hh w. unfold try_except. destruct (c w) as [[a|e] w1].
  - now exists a, w1.
  - apply Hh.
Qed.

Lemma returns_tick : returns tick (fun _ => True).
Proof. intros w. now exists (step w), (bump w). Qed.

Lemma returns_weaken {A} (c : M A) (P Q : A -> Prop) :
  returns c P -> (forall a, P a -> Q a) -> returns c Q.
Proof.
  intros Hc HPQ w. destruct (Hc w) as (a & w' & E & Pa).
  exists a, w'. auto.
Qed.

(** *** Computations that respect a relation between worlds *)

Section Preserves.

Context (R : World -> World -> Prop) `{FR : Frame R}.

Lemma preserves_ret {A} (a : A) : preserves R (ret a).
Proof. intros w. apply frame_refl. Qed.

Lemma preserves_raise {A} (e : exn) : preserves R (@raise A e).
Proof. intros w. apply frame_refl. Qed.

Lemma preserves_gets {A} (f : World -> A) : preserves R (gets f).
Proof. intros w. apply frame_refl. Qed.

Lemma preserves_tick : preserves R tick.
Proof. intros w. apply frame_tick. Qed.

Lemma preserves_set_messages (f : list MessageRow -> list MessageRow) :
  preserves R (set_messages f).
Proof. intros w. apply frame_messages. Qed.

Lemma preserves_bind {A B} (c : M A) (k : A -> M B) :
  preserves R c -> (forall a, preserves R (k a)) -> preserves R (bind c k).
Proof.
  intros Hc Hk w. unfold bind. specialize (Hc w).
  destruct (c w) as [[a|e] w1]; simpl in *; [|assumption].
  eapply frame_trans; [exact Hc | apply Hk].
Qed.

Lemma preserves_try {A} (c : M A) (h : exn -> M A) :
  preserves R c -> (forall e, preserves R (h e)) ->
  preserves R (try_except c h).
Proof.
  intros Hc Hh w. unfold try_except. specialize (Hc w).
  destruct (c w) as [[a|e] w1]; simpl in *; [assumption|].
  eapply frame_trans; [exact Hc | apply Hh].
Qed.

Lemma preserves_uuid4 (env : Env) : preserves R (uuid4 env).
Proof.
  apply preserves_bind; [apply preserves_tick | intros; apply preserves_ret].
Qed.

Lemma preserves_utcnow (env : Env) : preserves R (utcnow env).
Proof.
  apply preserves_bind; [apply preserves_tick | intros; apply preserves_ret].
Qed.

Lemma preserves_execute {A} (env : Env) (blank : A) (run : M A) :
  preserves R run -> preserves R (supabase_service.execute env blank run).
Proof.
  intros Hr. apply preserves_bind; [apply preserves_tick|]. intros k.
  destruct (fault_at env k) as [[m|]|].
  - apply preserves_raise.
  - apply preserves_bind; [assumption | intros; apply preserves_ret].
  - assumption.
Qed.

End Preserves.

#[export] Instance same_prompts_frame : Frame same_prompts.
Proof.
  split; unfold same_prompts; intros; try reflexivity. congruence.
Qed.

#[export] Instance titles_kept_frame : Frame titles_kept.
Proof.
  split; unfold titles_kept.
  - intros w s Hs. now exists s.
  - intros a b c Hab Hbc s Hs.
    destruct (Hab s Hs) as (s1 & H1 & Hi & Hu & Ht).
    destruct (Hbc s1 H1) as (s2 & H2 & Hi2 & Hu2 & Ht2).
    exists s2. repeat split; congruence.
  - intros w s Hs. now exists s.
  - intros f w s Hs. now exists s.
Qed.

Lemma same_prompts_set_sessions (f : list SessionRow -> list SessionRow) :
  preserves same_prompts (set_sessions f).
Proof. intros w. reflexivity. Qed.

Lemma titles_kept_record_prompt (p : list ChatMsg) :
  preserves titles_kept (record_prompt p).
Proof. intros w s Hs. now exists s. Qed.

Lemma titles_kept_append (row : SessionRow) :
  preserves titles_kept (set_sessions (fun l => l ++ [row])).
Proof.
  intros w s Hs. exists s. simpl. rewrite in_app_iff. tauto.
Qed.

Lemma titles_kept_count (sid : option str) :
  preserves titles_kept
    (set_sessions (map (supabase_service.count_message sid))).
Proof.
  intros w s Hs. exists (supabase_service.count_message sid s). simpl.
  split; [now apply in_map|].
  unfold supabase_service.count_message.
  destruct sid as [i|]; [destruct (eqb (s_id s) i)|]; repeat split.
Qed.

Create HintDb frame.
#[export] Hint Extern 0 (Frame _) => exact _ : frame.

(** One step of a structural walk through a computation. *)
Ltac frame_step :=
  first
    [ exact _
    | apply preserves_ret
    | apply preserves_raise
    | apply preserves_gets
    | apply preserves_tick
    | apply preserves_uuid4
    | apply preserves_utcnow
    | apply preserves_set_messages
    | apply same_prompts_set_sessions
    | apply titles_kept_record_prompt
    | apply titles_kept_append
    | apply titles_kept_count
    | solve [auto with frame nocore]
    | apply preserves_execute
    | apply preserves_try
    | apply preserves_bind
    | match goal with
      | |- preserves _ (match ?x with _ => _ end) => destruct x
      end ].

Ltac frame := repeat (intros; cbv beta zeta; frame_step).

Section FramedServices.

Context (R : World -> World -> Prop) `{FR : Frame R} (env : Env).

Lemma preserves_get_session_by_id (sid uid : str) :
  preserves R (supabase_service.get_session_by_id env sid uid).
Proof.
  unfold supabase_service.get_session_by_id,
    supabase_service.select_single_session, supabase_service.single.
  frame.
Qed.

Lemma preserves_get_recent_context (uid : str) (sid : option str) (n : nat) :
  preserves R (supabase_service.get_recent_context env uid sid n).
Proof.
  unfold supabase_service.get_recent_context,
    supabase_service.select_messages.
  frame.
Qed.

End FramedServices.

#[export] Hint Extern 1
  (preserves _ (supabase_service.get_session_by_id _ _ _)) =>
  apply preserves_get_session_by_id : frame.
#[export] Hint Extern 1
  (preserves _ (supabase_service.get_recent_context _ _ _ _)) =>
  apply preserves_get_recent_context : frame.

Lemma preserves_validate_session (R : World -> World -> Prop) `{FR : Frame R}
    (env : Env) (sid : option str) (uid : str) :
  preserves R (router.validate_session env sid uid).
Proof. unfold router.validate_session, router.not_found. frame. Qed.

#[export] Hint Extern 1 (preserves _ (router.validate_session _ _ _)) =>
  apply preserves_validate_session : frame.

Lemma titles_kept_log_chat_message (env : Env)
    (uid msg ai : str) (sid : option str) :
  preserves titles_kept (supabase_service.log_chat_message env uid msg ai sid).
Proof.
  unfold supabase_service.log_chat_message,
    supabase_service.create_chat_session, supabase_service.insert_session,
    supabase_service.insert_message.
  frame.
Qed.

Lemma same_prompts_log_chat_message (env : Env)
    (uid msg ai : str) (sid : option str) :
  preserves same_prompts (supabase_service.log_chat_message env uid msg ai sid).
Proof.
  unfold supabase_service.log_chat_message,
    supabase_service.create_chat_session, supabase_service.insert_session,
    supabase_service.insert_message.
  frame.
Qed.

#[export] Hint Resolve titles_kept_log_chat_message
  same_prompts_log_chat_message : frame.

Lemma same_prompts_update_session_title (env : Env) (sid uid new_title : str) :
  preserves same_prompts
    (supabase_service.update_session_title env sid uid new_title).
Proof.
  unfold supabase_service.update_session_title,
    supabase_service.update_sessions.
  frame.
Qed.

Lemma same_prompts_auto_update_title (env : Env)
    (fsid : option str) (uid msg : str) :
  preserves same_prompts (router.auto_update_title env fsid uid msg).
Proof.
  unfold router.auto_update_title. frame.
Qed.

#[export] Hint Resolve same_prompts_update_session_title
  same_prompts_auto_update_title : frame.


Lemma titles_kept_turn_reply (env : Env) (request : ChatRequest) (user : User) :
  preserves titles_kept (router.turn_reply env request user).
Proof.
  unfold router.turn_reply, openai_service.get_chat_response,
    openai_service.generate_fitness_response.
  frame.
Qed.

(** *** The parts of a turn that cannot raise *)

Lemma returns_get_session_by_id (env : Env) (sid uid : str) :
  returns (supabase_service.get_session_by_id env sid uid) (fun _ => True).
Proof.
  apply returns_try. intros e.
  destruct (supabase_service.table_missing e); now apply returns_ret.
Qed.

Lemma returns_update_session_title (env : Env) (sid uid new_title : str) :
  returns (supabase_service.update_session_title env sid uid new_title)
    (fun _ => True).
Proof.
  apply returns_try. intros e.
  destruct (supabase_service.table_missing e); now apply returns_ret.
Qed.

Lemma returns_log_chat_message (env : Env)
    (uid msg ai : str) (sid : option str) :
  returns (supabase_service.log_chat_message env uid msg ai sid)
    (fun _ => True).
Proof.
  unfold supabase_service.log_chat_message.
  apply returns_bind with (P := fun _ => True).
  - destruct (negb (truthy_opt sid)).
    + apply returns_try. intros _. now apply returns_ret.
    + now apply returns_ret.
  - intros sid' _. apply returns_bind with (P := fun _ => True).
    + apply returns_bind with (P := fun _ => True);
        [apply returns_tick | intros; now apply returns_ret].
    + intros id _. apply returns_bind with (P := fun _ => True).
      * apply returns_bind with (P := fun _ => True);
          [apply returns_tick | intros; now apply returns_ret].
      * intros t _. cbv zeta. apply returns_try.
        intros _. now apply returns_ret.
Qed.

Lemma returns_auto_update_title (env : Env)
    (fsid : option str) (uid msg : str) :
  returns (router.auto_update_title env fsid uid msg) (fun _ => True).
Proof.
  unfold router.auto_update_title.
  destruct fsid as [s|]; [destruct (truthy s)|]; try now apply returns_ret.
  apply returns_bind with (P := fun _ => True);
    [apply returns_get_session_by_id|].
  intros [cur|] _; [|now apply returns_ret].
  destruct (eqb (s_title cur) (lit "New Chat") && (s_message_count cur =? 1));
    [|now apply returns_ret].
  cbv zeta. apply returns_bind with (P := fun _ => True);
    [apply returns_update_session_title | intros; now apply returns_ret].
Qed.

(** After the completion call the turn cannot fail: whatever the datastore
    does, the reply is returned. *)
Lemma returns_turn_persist (env : Env)
    (request : ChatRequest) (user : User) (ai : str) :
  returns (router.turn_persist env request user ai)
    (fun resp => r_message resp = ai).
Proof.
  unfold router.turn_persist.
  apply returns_bind with (P := fun _ => True);
    [apply returns_log_chat_message|].
  intros stored _. cbv zeta.
  apply returns_bind with (P := fun _ => True);
    [apply returns_auto_update_title|].
  intros t _. now apply returns_ret.
Qed.

(** [send_chat_message] is its two halves in sequence, under the handler's
    translation of exceptions. *)
Lemma send_chat_message_split (env : Env)
    (request : ChatRequest) (user : User) (w : World) :
  router.send_chat_message env request user w
  = router.reraise_http (lit "Failed to process chat message")
      (ai <- router.turn_reply env request user ;;
       router.turn_persist env request user ai) w.
Proof.
  unfold router.send_chat_message, router.reraise_http, try_except,
    router.turn_reply, router.turn_persist, bind.
  destruct (router.validate_session env _ _ w) as [[u|e] w1]; [|reflexivity].
  destruct (supabase_service.get_recent_context env _ _ _ w1)
    as [[ctx|e] w2]; reflexivity.
Qed.

(** ** A failed write of the message record *)

(** C1. Once the completion call of a turn has succeeded with a reply, the
    chat endpoint returns a success response whose message is that reply,
    whatever the datastore does afterwards: in particular when the insert of
    the message record raises or returns no data. *)
Theorem reply_survives_logging_failure
    (env : Env) (request : ChatRequest) (user : User)
    (w w1 : World) (ai : str) :
  router.turn_reply env request user w = (Ok ai, w1) ->
  exists resp w',
    router.send_chat_message env request user w = (Ok resp, w')
    /\ r_message resp = ai.
Proof.
  intros Hr. rewrite send_chat_message_split.
  destruct (returns_turn_persist env request user ai w1)
    as (resp & w' & Hp & Hm).
  exists resp, w'. split; [|assumption].
  unfold router.reraise_http.
  apply try_ok. now rewrite (bind_ok _ _ _ _ _ Hr).
Qed.

(** The insert of the message record (position 7 of the run) raises. *)
Lemma reply_survives_logging_failure_witness :
  router.turn_reply (sample_env (lit "Hi there") (fails_at 7))
    (mkChatRequest (lit "Hello") None) alice (world [] [])
  = (Ok (lit "Hi there"),
     mkWorld [] [] 1
       [openai_service.build_messages
          (sample_env (lit "Hi there") (fails_at 7)) (lit "Hello") []])
  /\ exists resp w',
       router.send_chat_message (sample_env (lit "Hi there") (fails_at 7))
         (mkChatRequest (lit "Hello") None) alice (world [] [])
       = (Ok resp, w')
       /\ r_message resp = lit "Hi there".
Proof.
  split; [reflexivity|].
  apply (reply_survives_logging_failure
           (sample_env (lit "Hi there") (fails_at 7))
           (mkChatRequest (lit "Hello") None) alice (world [] [])
           (mkWorld [] [] 1
              [openai_service.build_messages
                 (sample_env (lit "Hi there") (fails_at 7)) (lit "Hello") []])
           (lit "Hi there")).
  reflexivity.
Defined.

(** When only the insert of the message record raises, the response still
    carries the identifier of the session created for the turn. *)
Example insert_raises_session_kept :
  fst (router.send_chat_message (sample_env (lit "Hi there") (fails_at 7))
         (mkChatRequest (lit "Hello") None) alice (world [] []))
  = Ok {| r_message := lit "Hi there"; r_timestamp := 106;
          r_session_id := Some (uuid_str 1001); r_session_title := None |}.
Proof. reflexivity. Qed.

(** The same when the insert returns no data. *)
Example insert_blank_session_kept :
  fst (router.send_chat_message (sample_env (lit "Hi there") (blank_at 7))
         (mkChatRequest (lit "Hello") None) alice (world [] []))
  = Ok {| r_message := lit "Hi there"; r_timestamp := 106;
          r_session_id := Some (uuid_str 1001); r_session_title := None |}.
Proof. reflexivity. Qed.

(** When the datastore refuses every write of the turn, the session
    identifier of the response is absent. *)
Example writes_refused_no_session :
  fst (router.send_chat_message (sample_env (lit "Hi there") (fails_from 1))
         (mkChatRequest (lit "Hello") None) alice (world [] []))
  = Ok {| r_message := lit "Hi there"; r_timestamp := 106;
          r_session_id := None; r_session_title := None |}.
Proof. reflexivity. Qed.

(** ** Resolving a session *)

Lemma get_session_by_id_run (env : Env) (sid uid : str) (w : World) :
  supabase_service.get_session_by_id env sid uid w
  = (Ok (session_lookup env sid uid w), bump w).
Proof.
  unfold supabase_service.get_session_by_id, try_except,
    supabase_service.select_single_session, supabase_service.execute,
    bind, session_lookup.
  rewrite tick_run.
  destruct (fault_at env (step w)) as [[m|]|].
  - unfold raise. destruct (supabase_service.table_missing _); reflexivity.
  - unfold gets, supabase_service.single, bump; simpl.
    destruct (filter _ (chat_sessions w)) as [|r [|r' l]]; simpl;
      try reflexivity;
      destruct (supabase_service.table_missing _); reflexivity.
  - unfold gets, supabase_service.single, bump; simpl.
    destruct (filter _ (chat_sessions w)) as [|r [|r' l]]; simpl;
      try reflexivity;
      destruct (supabase_service.table_missing _); reflexivity.
Qed.

Lemma session_is_true (sid uid : str) (s : SessionRow) :
  supabase_service.session_is sid uid s = true
  <-> s_id s = sid /\ s_user_id s = uid.
Proof.
  unfold supabase_service.session_is.
  rewrite andb_true_iff, !eqb_eq. reflexivity.
Qed.

Lemma not_owned_filter (sid uid : str) (w : World) :
  not_owned sid uid w ->
  filter (supabase_service.session_is sid uid) (chat_sessions w) = [].
Proof.
  unfold not_owned. induction (chat_sessions w) as [|s l IH]; intros H;
    [reflexivity|].
  simpl. destruct (supabase_service.session_is sid uid s) eqn:E.
  - apply session_is_true in E as [Hi Hu].
    exfalso. apply (H s); [now left | assumption | assumption].
  - apply IH. intros s' Hs. apply H. now right.
Qed.

Lemma not_owned_lookup (env : Env) (sid uid : str) (w : World) :
  not_owned sid uid w -> session_lookup env sid uid w = None.
Proof.
  intros H. unfold session_lookup. rewrite not_owned_filter by assumption.
  destruct (fault_at env (step w)); reflexivity.
Qed.





(** ** Deleting all sessions *)

Lemma no_sessions_filter (uid : str) (w : World) :
  no_sessions uid w ->
  filter (supabase_service.session_of uid) (chat_sessions w) = [].
Proof.
  unfold no_sessions. induction (chat_sessions w) as [|s l IH]; intros H;
    [reflexivity|].
  simpl. destruct (supabase_service.session_of uid s) eqn:E.
  - apply eqb_eq in E. exfalso. apply (H s); [now left | assumption].
  - apply IH. intros s' Hs. apply H. now right.
Qed.

(** C8. For a user who owns no session, whenever the datastore answers the
    count request, the delete-all endpoint returns a success body whose
    deleted count is 0, and nothing is deleted. *)
Theorem delete_all_of_no_sessions (env : Env) (user : User) (w : World) :
  no_sessions (u_id user) w ->
  (forall m, fault_at env (step w) <> Some (Raises m)) ->
  router.delete_all_chat_sessions env user w
  = (Ok {| da_message := lit "Successfully deleted 0 chat sessions";
           deleted_count := 0 |},
     bump w).
Proof.
  intros Hno Hup.
  unfold router.delete_all_chat_sessions, router.all_to_500,
    supabase_service.delete_all_user_sessions,
    supabase_service.count_sessions, supabase_service.execute,
    try_except, bind.
  rewrite tick_run.
  destruct (fault_at env (step w)) as [[m|]|] eqn:E.
  - exfalso. now apply (Hup m).
  - reflexivity.
  - unfold gets. rewrite no_sessions_filter by assumption. reflexivity.
Qed.

Lemma delete_all_of_no_sessions_witness :
  no_sessions (u_id alice) (world [bob_session] [bob_message])
  /\ (forall m, fault_at (healthy_env (lit "Hi there"))
                  (step (world [bob_session] [bob_message]))
                <> Some (Raises m))
  /\ router.delete_all_chat_sessions (healthy_env (lit "Hi there")) alice
       (world [bob_session] [bob_message])
     = (Ok {| da_message := lit "Successfully deleted 0 chat sessions";
              deleted_count := 0 |},
        bump (world [bob_session] [bob_message])).
Proof.
  assert (Hno : no_sessions (u_id alice) (world [bob_session] [bob_message])).
  { intros s [<-|[]]. vm_compute. discriminate. }
  assert (Hup : forall m, fault_at (healthy_env (lit "Hi there"))
                            (step (world [bob_session] [bob_message]))
                          <> Some (Raises m)).
  { intros m. simpl. discriminate. }
  split; [exact Hno|]. split; [exact Hup|].
  apply (delete_all_of_no_sessions (healthy_env (lit "Hi there")) alice
           (world [bob_session] [bob_message]) Hno Hup).
Defined.

(** ** Ordered query results *)

Section Ordering.

Context {A : Type} (key : A -> nat).

Lemma insert_by_perm (leb : A -> A -> bool) (a : A) (l : list A) :
  Permutation (insert_by leb a l) (a :: l).
Proof.
  induction l as [|b l IH]; simpl; [reflexivity|].
  destruct (leb a b); [reflexivity|].
  rewrite IH. apply perm_swap.
Qed.

Lemma order_by_perm (leb : A -> A -> bool) (l : list A) :
  Permutation (order_by leb l) l.
Proof.
  induction l as [|a l IH]; simpl; [reflexivity|].
  rewrite insert_by_perm. now constructor.
Qed.

Lemma insert_by_newest_first (a : A) (l : list A) :
  newest_first key l -> newest_first key (insert_by (desc key) a l).
Proof.
  unfold newest_first. induction l as [|b l IH]; intros Hs; simpl.
  - constructor; constructor.
  - inversion Hs as [|? ? Hl Hb]; subst. unfold desc at 1.
    destruct (key b <=? key a) eqn:E.
    + apply Nat.leb_le in E. constructor; [assumption|].
      constructor; [assumption|].
      eapply Forall_impl; [|exact Hb]. simpl. intros; lia.
    + apply Nat.leb_gt in E. constructor; [now apply IH|].
      rewrite (Forall_forall). intros y Hy.
      apply (Permutation_in _ (insert_by_perm (desc key) a l)) in Hy.
      destruct Hy as [<-|Hy]; [lia|].
      rewrite Forall_forall in Hb. now apply Hb.
Qed.

Lemma order_by_newest_first (l : list A) :
  newest_first key (order_by (desc key) l).
Proof.
  induction l as [|a l IH]; simpl; [constructor|].
  now apply insert_by_newest_first.
Qed.

Lemma newest_first_split (l1 l2 : list A) :
  newest_first key (l1 ++ l2) ->
  newest_first key l1
  /\ (forall x y, In x l1 -> In y l2 -> key y <= key x).
Proof.
  unfold newest_first. induction l1 as [|a l1 IH]; simpl; intros H.
  - split; [constructor | intros x y []].
  - inversion H as [|? ? Hl Ha]; subst. destruct (IH Hl) as [H1 H2].
    rewrite Forall_app in Ha. destruct Ha as [Ha1 Ha2]. split.
    + now constructor.
    + intros x y [<-|Hx] Hy; [|now apply H2].
      rewrite Forall_forall in Ha2. now apply Ha2.
Qed.

Lemma oldest_first_snoc (l : list A) (a : A) :
  oldest_first key l -> (forall x, In x l -> key x <= key a) ->
  oldest_first key (l ++ [a]).
Proof.
  unfold oldest_first. induction l as [|b l IH]; simpl; intros Hs Ha.
  - constructor; constructor.
  - inversion Hs as [|? ? Hl Hb]; subst. constructor.
    + apply IH; [assumption | intros; apply Ha; now right].
    + rewrite Forall_app. split; [assumption|].
      constructor; [apply Ha; now left | constructor].
Qed.

Lemma newest_first_rev (l : list A) :
  newest_first key l -> oldest_first key (rev l).
Proof.
  unfold newest_first. induction l as [|a l IH]; simpl; intros Hs;
    [constructor|].
  inversion Hs as [|? ? Hl Ha]; subst.
  apply oldest_first_snoc; [now apply IH|].
  intros x Hx. apply in_rev in Hx.
  rewrite Forall_forall in Ha. now apply Ha.
Qed.

(** The [n] first rows of a newest-first ordering, reversed, are the [n]
    most recent rows, oldest first. *)
Lemma recent_window (n : nat) (l : list A) :
  let sorted := order_by (desc key) l in
  Permutation (skipn n sorted ++ rev (firstn n sorted)) l
  /\ length (rev (firstn n sorted)) = Nat.min (length l) n
  /\ oldest_first key (rev (firstn n sorted))
  /\ (forall o r, In o (skipn n sorted) -> In r (rev (firstn n sorted)) ->
      key o <= key r).
Proof.
  intros sorted.
  pose proof (order_by_perm (desc key) l) as Hp. fold sorted in Hp.
  pose proof (order_by_newest_first l) as Hs. fold sorted in Hs.
  rewrite <- (firstn_skipn n sorted) in Hs.
  apply newest_first_split in Hs as [Hs1 Hs2].
  split; [|split; [|split]].
  - eapply Permutation_trans; [|exact Hp].
    eapply Permutation_trans; [apply Permutation_app_comm|].
    eapply Permutation_trans;
      [apply Permutation_app_tail; symmetry; apply Permutation_rev|].
    now rewrite firstn_skipn.
  - rewrite length_rev, length_firstn, (Permutation_length Hp). lia.
  - now apply newest_first_rev.
  - intros o r Ho Hr. apply in_rev in Hr. now apply Hs2.
Qed.

End Ordering.

(** ** The context window *)

Lemma get_recent_context_run (env : Env)
    (uid : str) (sid : option str) (n : nat) (w : World) :
  fault_at env (step w) = None ->
  supabase_service.get_recent_context env uid sid n w
  = (Ok (map context_of_row (recent_rows uid sid n w)), bump w).
Proof.
  intros Hup.
  unfold supabase_service.get_recent_context,
    supabase_service.select_messages, supabase_service.execute,
    try_except, bind, recent_rows.
  rewrite tick_run, Hup. unfold gets. simpl chat_messages.
  destruct (limit n _) as [|r l]; reflexivity.
Qed.

Lemma message_in_session (uid sid : str) (w : World) :
  sid <> [] ->
  filter (supabase_service.message_in uid (Some sid)) (chat_messages w)
  = session_messages uid sid w.
Proof.
  intros Hne. unfold session_messages. apply filter_ext. intros m.
  unfold supabase_service.message_in.
  destruct sid as [|c sid]; [contradiction | reflexivity].
Qed.


(** C6. For a session with N message records, whenever the datastore
    answers the query, the context fetch returns the two columns of exactly
    min(N, 5) of them, oldest first; the records left out are none when
    N <= 5, and otherwise are each at most as recent as every record
    returned. *)
Theorem context_is_the_five_most_recent
    (env : Env) (uid sid : str) (w : World) :
  sid <> [] ->
  fault_at env (step w) = None ->
  exists recent older,
    supabase_service.get_recent_context env uid (Some sid) 5 w
      = (Ok (map context_of_row recent), bump w)
    /\ Permutation (older ++ recent) (session_messages uid sid w)
    /\ length recent = Nat.min (length (session_messages uid sid w)) 5
    /\ chronological recent
    /\ not_after older recent
    /\ (length (session_messages uid sid w) <= 5 -> older = []).
Proof.
  intros Hne Hup.
  pose proof (recent_window m_created_at 5 (session_messages uid sid w))
    as (Hp & Hl & Hs & Ho).
  exists (recent_rows uid (Some sid) 5 w).
  exists (skipn 5 (order_by (desc m_created_at) (session_messages uid sid w))).
  unfold recent_rows, limit. rewrite message_in_session by assumption.
  split; [|split; [|split; [|split; [|split]]]]; try assumption.
  - rewrite get_recent_context_run by assumption.
    unfold recent_rows, limit. now rewrite message_in_session.
  - intros Hn. apply skipn_all2.
    rewrite (Permutation_length (order_by_perm _ _)). exact Hn.
Qed.

Lemma context_is_the_five_most_recent_witness :
  uuid_str 42 <> []
  /\ fault_at (healthy_env (lit "Hi there"))
       (step (world [alice_session] six_messages)) = None
  /\ exists recent older,
       supabase_service.get_recent_context (healthy_env (lit "Hi there"))
         (lit "alice") (Some (uuid_str 42)) 5
         (world [alice_session] six_messages)
       = (Ok (map context_of_row recent),
          bump (world [alice_session] six_messages))
       /\ Permutation (older ++ recent)
            (session_messages (lit "alice") (uuid_str 42)
               (world [alice_session] six_messages))
       /\ length recent
          = Nat.min (length (session_messages (lit "alice") (uuid_str 42)
                               (world [alice_session] six_messages))) 5
       /\ chronological recent
       /\ not_after older recent
       /\ (length (session_messages (lit "alice") (uuid_str 42)
                     (world [alice_session] six_messages)) <= 5 ->
           older = []).
Proof.
  split; [discriminate|]. split; [reflexivity|].
  apply (context_is_the_five_most_recent (healthy_env (lit "Hi there"))
           (lit "alice") (uuid_str 42) (world [alice_session] six_messages));
    [discriminate | reflexivity].
Defined.

Example context_of_six_messages :
  fst (supabase_service.get_recent_context (healthy_env (lit "Hi there"))
         (lit "alice") (Some (uuid_str 42)) 5
         (world [alice_session] six_messages))
  = Ok (map (fun t => context_of_row (alice_message t)) [2; 3; 4; 5; 6]).
Proof. reflexivity. Qed.

Example context_of_two_messages :
  fst (supabase_service.get_recent_context (healthy_env (lit "Hi there"))
         (lit "alice") (Some (uuid_str 42)) 5
         (world [alice_session] [alice_message 9; alice_message 4]))
  = Ok (map (fun t => context_of_row (alice_message t)) [4; 9]).
Proof. reflexivity. Qed.

(** ** The context of a turn without a session *)

Lemma validate_session_falsy (env : Env) (sid : option str) (uid : str)
    (w : World) :
  truthy_opt sid = false ->
  router.validate_session env sid uid w = (Ok tt, w).
Proof.
  intros Hf. unfold router.validate_session.
  destruct sid as [s|]; [simpl in Hf; rewrite Hf|]; reflexivity.
Qed.



Lemma reraise_http_world {A} (detail : str) (c : M A) (w : World) :
  snd (router.reraise_http detail c w) = snd (c w).
Proof.
  unfold router.reraise_http, try_except.
  destruct (c w) as [[a|[st d|m]] w']; reflexivity.
Qed.

Lemma turn_reply_sessionless (env : Env) (request : ChatRequest)
    (user : User) (w : World) :
  truthy_opt (rq_session_id request) = false ->
  fault_at env (step w) = None ->
  router.turn_reply env request user w
  = openai_service.get_chat_response env (rq_message request)
      (map context_of_row
         (recent_rows (u_id user) (rq_session_id request) 5 w))
      (bump w).
Proof.
  intros Hf Hup. unfold router.turn_reply, bind.
  rewrite validate_session_falsy by assumption.
  now rewrite get_recent_context_run.
Qed.





(** The first reply of a brand-new session is conditioned on the records of
    the caller's other session. *)
Example new_session_prompt_has_old_turns :
  prompts (snd (router.send_chat_message (healthy_env (lit "Hi there"))
                  (mkChatRequest (lit "Hello") None) alice
                  (world [alice_session] [alice_message 9; alice_message 4])))
  = [ [ {| role := RoleSystem;
           content := SYSTEM_PROMPT (healthy_env (lit "Hi there")) |};
        {| role := RoleUser; content := lit "4" |};
        {| role := RoleAssistant; content := lit "ok" |};
        {| role := RoleUser; content := lit "9" |};
        {| role := RoleAssistant; content := lit "ok" |};
        {| role := RoleUser; content := lit "Hello" |} ] ].
Proof. reflexivity. Qed.

(** ** A healthy turn that opens a session *)

Lemma get_chat_response_run (env : Env) (msg c : str)
    (ctx : list ContextRow) (w : World) :
  completions_create env (openai_service.build_messages env msg ctx)
    = Content (Some c) ->
  truthy c = true ->
  openai_service.get_chat_response env msg ctx w
  = (Ok (strip c),
     {| chat_sessions := chat_sessions w; chat_messages := chat_messages w;
        step := step w;
        prompts := prompts w ++ [openai_service.build_messages env msg ctx] |}).
Proof.
  intros Hc Ht.
  unfold openai_service.get_chat_response,
    openai_service.generate_fitness_response, bind, record_prompt, modify.
  cbv zeta. rewrite Hc.
  change (truthy_opt (Some c)) with (truthy c). rewrite Ht. reflexivity.
Qed.


Ltac run :=
  cbv beta iota zeta
    delta [bind ret raise try_except gets modify tick uuid4 utcnow
           set_sessions set_messages record_prompt supabase_service.execute
           step chat_sessions chat_messages prompts bump negb].

Lemma create_chat_session_run (env : Env) (uid ttl : str) (w : World) :
  fault_at env (3 + step w) = None ->
  supabase_service.create_chat_session env uid ttl w
  = (Ok (created_session env uid ttl (step w)),
     {| chat_sessions := chat_sessions w
                         ++ [created_session env uid ttl (step w)];
        chat_messages := chat_messages w;
        step := 4 + step w; prompts := prompts w |}).
Proof.
  intros Hup. destruct w as [ss ms k ps]. simpl in Hup.
  unfold supabase_service.create_chat_session,
    supabase_service.insert_session.
  run. rewrite Hup. reflexivity.
Qed.

Ltac run_rows :=
  cbv beta iota zeta
    delta [bind ret raise try_except gets modify tick uuid4 utcnow
           set_sessions set_messages record_prompt supabase_service.execute
           step chat_sessions chat_messages prompts bump negb
           s_id created_session].

Lemma log_chat_message_new (env : Env) (uid msg ai : str)
    (sid : option str) (w : World) :
  truthy_opt sid = false ->
  fault_at env (3 + step w) = None ->
  fault_at env (6 + step w) = None ->
  supabase_service.log_chat_message env uid msg ai sid w
  = (Ok (logged_message env uid msg ai (uuid_str (uuid4_value env (step w)))
           (4 + step w)),
     {| chat_sessions :=
          map (supabase_service.count_message
                 (Some (uuid_str (uuid4_value env (step w)))))
            (chat_sessions w
             ++ [created_session env uid
                   (supabase_service.session_title msg) (step w)]);
        chat_messages :=
          chat_messages w
          ++ [row_of_dict
                (logged_message env uid msg ai
                   (uuid_str (uuid4_value env (step w))) (4 + step w))];
        step := 7 + step w; prompts := prompts w |}).
Proof.
  intros Hf Hup1 Hup2. destruct w as [ss ms k ps]. simpl in Hup1, Hup2.
  unfold supabase_service.log_chat_message. rewrite Hf.
  unfold supabase_service.create_chat_session,
    supabase_service.insert_session, supabase_service.insert_message.
  run. rewrite Hup1. run_rows. rewrite uuid_str_truthy. run.
  rewrite Hup2. reflexivity.
Qed.

Lemma count_message_fresh (id : str) (l : list SessionRow) :
  (forall s, In s l -> s_id s <> id) ->
  map (supabase_service.count_message (Some id)) l = l.
Proof.
  intros H. rewrite <- (map_id l) at 2. apply map_ext_in. intros s Hs.
  unfold supabase_service.count_message.
  destruct (eqb (s_id s) id) eqn:E; [|reflexivity].
  apply eqb_eq in E. now apply H in Hs.
Qed.

Lemma filter_session_fresh (id uid : str) (l : list SessionRow) :
  (forall s, In s l -> s_id s <> id) ->
  filter (supabase_service.session_is id uid) l = [].
Proof.
  intros H. induction l as [|s l IH]; [reflexivity|]. simpl.
  destruct (supabase_service.session_is id uid s) eqn:E.
  - apply session_is_true in E as [Hi _]. exfalso.
    apply (H s); [now left | assumption].
  - apply IH. intros s' Hs'. apply H. now right.
Qed.

Lemma rename_fresh (id uid : str) (f : SessionRow -> SessionRow)
    (l : list SessionRow) :
  (forall s, In s l -> s_id s <> id) ->
  map (fun s => if supabase_service.session_is id uid s then f s else s) l
  = l.
Proof.
  intros H. rewrite <- (map_id l) at 2. apply map_ext_in. intros s Hs.
  destruct (supabase_service.session_is id uid s) eqn:E; [|reflexivity].
  apply session_is_true in E as [Hi _]. now apply H in Hs.
Qed.

Lemma session_is_self (s : SessionRow) :
  supabase_service.session_is (s_id s) (s_user_id s) s = true.
Proof. apply session_is_true. now split. Qed.

(** The auto-title step on a session that is the only one with its
    identifier. *)
Lemma auto_update_title_run (env : Env) (msg : str)
    (ss : list SessionRow) (r : SessionRow) (ms : list MessageRow)
    (k : nat) (ps : list (list ChatMsg)) :
  datastore_healthy env ->
  (forall s, In s ss -> s_id s <> s_id r) ->
  truthy (s_id r) = true ->
  router.auto_update_title env (Some (s_id r)) (s_user_id r) msg
    (mkWorld (ss ++ [r]) ms k ps)
  = if eqb (s_title r) (lit "New Chat") && (s_message_count r =? 1)
    then (Ok (Some (router.auto_title msg)),
          mkWorld (ss ++ [renamed (router.auto_title msg)
                            (utcnow_value env (2 + k)) r])
            ms (4 + k) ps)
    else (Ok None, mkWorld (ss ++ [r]) ms (1 + k) ps).
Proof.
  intros Hup Hfresh Ht.
  assert (Hlook : forall j,
            session_lookup env (s_id r) (s_user_id r)
              (mkWorld (ss ++ [r]) ms j ps) = Some r).
  { intros j. unfold session_lookup. simpl. rewrite Hup.
    rewrite filter_app, filter_session_fresh by assumption.
    simpl. now rewrite session_is_self. }
  unfold router.auto_update_title. rewrite Ht.
  rewrite (bind_ok _ _ _ _ _ (get_session_by_id_run _ _ _ _)), Hlook.
  destruct (eqb (s_title r) (lit "New Chat") && (s_message_count r =? 1));
    [|reflexivity].
  cbv zeta. unfold supabase_service.update_session_title.
  unfold bind at 1, try_except.
  rewrite (bind_ok _ _ _ _ _ (get_session_by_id_run _ _ _ _)).
  unfold bump at 1. simpl. rewrite Hlook.
  unfold supabase_service.update_sessions. run.
  rewrite Hup. run.
  rewrite map_app, rename_fresh by assumption.
  simpl. rewrite session_is_self. reflexivity.
Qed.

Lemma sentinel_title_kept (msg : str) :
  supabase_service.session_title msg = lit "New Chat" ->
  router.auto_title msg = lit "New Chat".
Proof.
  intros H. rewrite session_title_ellipsis in H. unfold ellipsis in H.
  destruct (50 <? length msg) eqn:E.
  - apply Nat.ltb_lt in E. apply (f_equal (@length char)) in H.
    rewrite length_app, length_firstn in H.
    change (length (lit "...")) with 3 in H.
    change (length (lit "New Chat")) with 8 in H. lia.
  - apply Nat.ltb_ge in E. rewrite app_nil_r, firstn_all2 in H by lia.
    subst msg. reflexivity.
Qed.

Lemma first_turn_session_facts (env : Env) (uid msg : str) (k : nat) :
  s_id (first_turn_session env uid msg k) = uuid_str (uuid4_value env k)
  /\ s_user_id (first_turn_session env uid msg k) = uid
  /\ s_message_count (first_turn_session env uid msg k) = 1
  /\ s_title (first_turn_session env uid msg k)
     = firstn 50 msg ++ ellipsis msg.
Proof.
  unfold first_turn_session. cbv zeta.
  destruct (eqb (supabase_service.session_title msg) (lit "New Chat")) eqn:E;
    cbn [s_id s_user_id s_message_count s_title renamed counted
         created_session];
    repeat split; try apply session_title_ellipsis.
  apply eqb_eq in E. rewrite <- session_title_ellipsis, E.
  now apply sentinel_title_kept.
Qed.

Lemma count_message_created (env : Env) (uid ttl : str) (k : nat) :
  supabase_service.count_message (Some (uuid_str (uuid4_value env k)))
    (created_session env uid ttl k)
  = counted (created_session env uid ttl k).
Proof.
  unfold supabase_service.count_message.
  cbn [s_id created_session]. now rewrite eqb_refl.
Qed.

(** The whole of a healthy turn submitted without a session. *)
Lemma new_session_turn (env : Env) (request : ChatRequest) (user : User)
    (c : str) (w : World) :
  truthy_opt (rq_session_id request) = false ->
  datastore_healthy env ->
  provider_replies env c ->
  truthy c = true ->
  fresh_ids env w ->
  exists w',
    router.send_chat_message env request user w
    = (Ok {| r_message := strip c;
             r_timestamp := utcnow_value env (6 + step w);
             r_session_id := Some (uuid_str (uuid4_value env (1 + step w)));
             r_session_title :=
               if eqb (supabase_service.session_title (rq_message request))
                    (lit "New Chat")
               then Some (router.auto_title (rq_message request))
               else None |},
       w')
    /\ chat_sessions w'
       = chat_sessions w
         ++ [first_turn_session env (u_id user) (rq_message request)
               (1 + step w)].
Proof.
  intros Hf Hup Hc Ht Hfresh. destruct w as [ss ms k ps].
  simpl step. simpl chat_sessions.
  rewrite send_chat_message_split. unfold router.reraise_http.
  set (ps1 := ps ++ [openai_service.build_messages env (rq_message request)
                       (map context_of_row
                          (recent_rows (u_id user) (rq_session_id request) 5
                             (mkWorld ss ms k ps)))]).
  assert (Hreply : router.turn_reply env request user (mkWorld ss ms k ps)
                   = (Ok (strip c), mkWorld ss ms (1 + k) ps1)).
  { rewrite turn_reply_sessionless by (try assumption; apply Hup).
    now rewrite (get_chat_response_run env _ c) by (try assumption; apply Hc). }
  pose proof (log_chat_message_new env (u_id user) (rq_message request)
                (strip c) (rq_session_id request)
                (mkWorld ss ms (1 + k) ps1) Hf (Hup _) (Hup _))
    as Hlog.
  simpl step in Hlog. simpl chat_sessions in Hlog.
  simpl chat_messages in Hlog. simpl prompts in Hlog.
  rewrite map_app, count_message_fresh in Hlog
    by (intros s Hs; now apply (Hfresh (1 + k) s)).
  cbn [map] in Hlog. rewrite count_message_created in Hlog.
  pose proof (auto_update_title_run env (rq_message request) ss
                (counted (created_session env (u_id user)
                            (supabase_service.session_title
                               (rq_message request)) (S k)))
                (ms ++ [row_of_dict
                          (logged_message env (u_id user) (rq_message request)
                             (strip c) (uuid_str (uuid4_value env (S k)))
                             (4 + S k))])
                (7 + S k) ps1 Hup
                (fun s Hs => Hfresh (S k) s Hs) (uuid_str_truthy _))
    as Hauto.
  cbn [s_title s_message_count s_id s_user_id counted created_session]
    in Hauto.
  change (1 =? 1) with true in Hauto. rewrite andb_true_r in Hauto.
  unfold try_except. rewrite (bind_ok _ _ _ _ _ Hreply).
  unfold router.turn_persist. rewrite (bind_ok _ _ _ _ _ Hlog). cbv zeta.
  unfold first_turn_session. cbv zeta.
  destruct (eqb (supabase_service.session_title (rq_message request))
              (lit "New Chat")).
  - erewrite bind_ok; [|exact Hauto].
    eexists. split; reflexivity.
  - erewrite bind_ok; [|exact Hauto].
    eexists. split; reflexivity.
Qed.

(** C3. For every valid message, a chat turn submitted with no session
    identifier, with a healthy datastore, a completion that succeeds and a
    freshly generated identifier, stores exactly one new session: it
    belongs to the caller, its message count is 1, and its title is the
    first 50 characters of the message, followed by the ellipsis marker
    exactly when the message is longer than 50 characters. *)
Theorem first_turn_creates_titled_session
    (env : Env) (msg : str) (user : User) (c : str) (w : World) :
  valid_message msg = true ->
  datastore_healthy env ->
  provider_replies env c ->
  truthy c = true ->
  fresh_ids env w ->
  exists resp w' row,
    router.send_chat_message env (mkChatRequest msg None) user w
      = (Ok resp, w')
    /\ chat_sessions w' = chat_sessions w ++ [row]
    /\ (forall s, In s (chat_sessions w) -> s_id s <> s_id row)
    /\ r_session_id resp = Some (s_id row)
    /\ s_user_id row = u_id user
    /\ s_message_count row = 1
    /\ s_title row = firstn 50 msg ++ ellipsis msg.
Proof.
  intros _ Hup Hc Ht Hfresh.
  destruct (new_session_turn env (mkChatRequest msg None) user c w
              eq_refl Hup Hc Ht Hfresh) as (w' & Hrun & Hs).
  destruct (first_turn_session_facts env (u_id user) msg (1 + step w))
    as (Hid & Hu & Hn & Htitle).
  eexists. exists w'. eexists.
  split; [exact Hrun|]. split; [exact Hs|].
  cbn [r_session_id rq_message]. rewrite Hid.
  repeat split; try assumption.
  intros s Hin. now apply Hfresh.
Qed.

Lemma first_turn_creates_titled_session_witness :
  valid_message (lit "Hello") = true
  /\ datastore_healthy (healthy_env (lit "Hi there"))
  /\ provider_replies (healthy_env (lit "Hi there")) (lit "Hi there")
  /\ truthy (lit "Hi there") = true
  /\ fresh_ids (healthy_env (lit "Hi there")) (world [] [])
  /\ exists resp w' row,
       router.send_chat_message (healthy_env (lit "Hi there"))
         (mkChatRequest (lit "Hello") None) alice (world [] [])
       = (Ok resp, w')
       /\ chat_sessions w' = chat_sessions (world [] []) ++ [row]
       /\ (forall s, In s (chat_sessions (world [] [])) -> s_id s <> s_id row)
       /\ r_session_id resp = Some (s_id row)
       /\ s_user_id row = u_id alice
       /\ s_message_count row = 1
       /\ s_title row = firstn 50 (lit "Hello") ++ ellipsis (lit "Hello").
Proof.
  assert (Hup : datastore_healthy (healthy_env (lit "Hi there")))
    by (intros k; reflexivity).
  assert (Hc : provider_replies (healthy_env (lit "Hi there"))
                 (lit "Hi there"))
    by (intros p; reflexivity).
  assert (Hfresh : fresh_ids (healthy_env (lit "Hi there")) (world [] []))
    by (intros k s []).
  repeat (split; [first [reflexivity | assumption]|]).
  apply (first_turn_creates_titled_session (healthy_env (lit "Hi there"))
           (lit "Hello") alice (lit "Hi there") (world [] [])
           eq_refl Hup Hc eq_refl Hfresh).
Defined.

Example long_message_title :
  map s_title
    (chat_sessions
       (snd (router.send_chat_message (healthy_env (lit "Hi there"))
               (mkChatRequest
                  (lit "I want to start working out but I am a complete beginner")
                  None)
               alice (world [] []))))
  = [lit "I want to start working out but I am a complete be..."].
Proof. reflexivity. Qed.

Lemma strip_nil_truthy (c : str) : strip c <> [] -> truthy c = true.
Proof. destruct c; [intros H; now elim H | reflexivity]. Qed.

(** C4, amended. For a chat turn with message ["Hello"] and no session
    identifier, with a healthy datastore, a fresh identifier and a
    completion whose text has a character other than whitespace, the
    response carries a non-empty session identifier, the completion text
    with surrounding whitespace removed as its non-empty message, and no
    session title; the title ["Hello"] is that of the stored session. *)
Theorem hello_turn_response
    (env : Env) (user : User) (c : str) (w : World) :
  datastore_healthy env ->
  provider_replies env c ->
  strip c <> [] ->
  fresh_ids env w ->
  exists resp w' row,
    router.send_chat_message env (mkChatRequest (lit "Hello") None) user w
      = (Ok resp, w')
    /\ chat_sessions w' = chat_sessions w ++ [row]
    /\ r_session_id resp = Some (s_id row)
    /\ s_id row <> []
    /\ s_title row = lit "Hello"
    /\ r_session_title resp = None
    /\ r_message resp = strip c
    /\ r_message resp <> [].
Proof.
  intros Hup Hc Hne Hfresh.
  destruct (new_session_turn env (mkChatRequest (lit "Hello") None) user c w
              eq_refl Hup Hc (strip_nil_truthy c Hne) Hfresh)
    as (w' & Hrun & Hs).
  destruct (first_turn_session_facts env (u_id user) (lit "Hello")
              (1 + step w)) as (Hid & Hu & Hn & Htitle).
  eexists. exists w'. eexists.
  split; [exact Hrun|]. split; [exact Hs|].
  cbn [r_session_id r_session_title r_message rq_message]. rewrite Hid.
  repeat split; try assumption; try discriminate.
Qed.

Lemma hello_turn_response_witness :
  datastore_healthy (healthy_env (lit " Hi there "))
  /\ provider_replies (healthy_env (lit " Hi there ")) (lit " Hi there ")
  /\ strip (lit " Hi there ") <> []
  /\ fresh_ids (healthy_env (lit " Hi there ")) (world [] [])
  /\ exists resp w' row,
       router.send_chat_message (healthy_env (lit " Hi there "))
         (mkChatRequest (lit "Hello") None) alice (world [] [])
       = (Ok resp, w')
       /\ chat_sessions w' = chat_sessions (world [] []) ++ [row]
       /\ r_session_id resp = Some (s_id row)
       /\ s_id row <> []
       /\ s_title row = lit "Hello"
       /\ r_session_title resp = None
       /\ r_message resp = strip (lit " Hi there ")
       /\ r_message resp <> [].
Proof.
  assert (Hup : datastore_healthy (healthy_env (lit " Hi there ")))
    by (intros k; reflexivity).
  assert (Hc : provider_replies (healthy_env (lit " Hi there "))
                 (lit " Hi there "))
    by (intros p; reflexivity).
  assert (Hne : strip (lit " Hi there ") <> []) by (vm_compute; discriminate).
  assert (Hfresh : fresh_ids (healthy_env (lit " Hi there ")) (world [] []))
    by (intros k s []).
  repeat (split; [assumption|]).
  apply (hello_turn_response (healthy_env (lit " Hi there ")) alice
           (lit " Hi there ") (world [] []) Hup Hc Hne Hfresh).
Defined.

(** C4 as stated fails: the response to ["Hello"] carries no session
    title. *)
Lemma hello_turn_reports_no_title :
  fst (router.send_chat_message (healthy_env (lit "Hi there"))
         (mkChatRequest (lit "Hello") None) alice (world [] []))
  = Ok {| r_message := lit "Hi there"; r_timestamp := 106;
          r_session_id := Some (uuid_str 1001); r_session_title := None |}
  /\ (forall resp,
        fst (router.send_chat_message (healthy_env (lit "Hi there"))
               (mkChatRequest (lit "Hello") None) alice (world [] []))
        = Ok resp ->
        r_session_title resp <> Some (lit "Hello")).
Proof.
  split; [reflexivity|].
  intros resp H. vm_compute in H. injection H as <-. discriminate.
Qed.

(** ** Sessions the auto-title step leaves alone *)

Lemma session_lookup_some (env : Env) (sid uid : str) (w : World)
    (cur : SessionRow) :
  session_lookup env sid uid w = Some cur ->
  filter (supabase_service.session_is sid uid) (chat_sessions w) = [cur].
Proof.
  unfold session_lookup. destruct (fault_at env (step w)); [discriminate|].
  destruct (filter _ (chat_sessions w)) as [|r [|r' l]]; try discriminate.
  now intros [= ->].
Qed.

Lemma not_first_turn (cur : SessionRow) :
  s_message_count cur <> 1 \/ s_title cur <> lit "New Chat" ->
  eqb (s_title cur) (lit "New Chat") && (s_message_count cur =? 1) = false.
Proof.
  intros [H|H].
  - apply Nat.eqb_neq in H. rewrite H. apply andb_false_r.
  - apply eqb_neq in H. now rewrite H.
Qed.

(** C7. In every chat turn, if the session resolved after the exchange has
    been persisted has a message count other than 1, or a title other than
    ["New Chat"], the auto-title branch performs no rename: the response
    carries no title, the sessions table is as persisting left it, and the
    title of the session is the one it had before the turn. *)
Theorem settled_session_not_renamed
    (env : Env) (request : ChatRequest) (user : User)
    (w w1 w2 : World) (ai fsid : str) (stored : MessageDict)
    (cur : SessionRow) :
  router.turn_reply env request user w = (Ok ai, w1) ->
  supabase_service.log_chat_message env (u_id user) (rq_message request) ai
    (rq_session_id request) w1 = (Ok stored, w2) ->
  dict_get (d_session_id stored) (rq_session_id request) = Some fsid ->
  session_lookup env fsid (u_id user) w2 = Some cur ->
  s_message_count cur <> 1 \/ s_title cur <> lit "New Chat" ->
  exists w3,
    router.send_chat_message env request user w
      = (Ok {| r_message := ai; r_timestamp := d_created_at stored;
               r_session_id := Some fsid; r_session_title := None |}, w3)
    /\ chat_sessions w3 = chat_sessions w2
    /\ In cur (chat_sessions w3)
    /\ (forall s, In s (chat_sessions w) ->
        s_id s = fsid -> s_user_id s = u_id user ->
        s_title cur = s_title s).
Proof.
  intros Hreply Hlog Hfinal Hlook Hsettled.
  pose proof (session_lookup_some _ _ _ _ _ Hlook) as Hfilter.
  assert (Hin : In cur (chat_sessions w2)).
  { apply (proj1 (filter_In (supabase_service.session_is fsid (u_id user))
                    cur (chat_sessions w2))).
    rewrite Hfilter. now left. }
  assert (Hauto : exists w3,
            router.auto_update_title env (Some fsid) (u_id user)
              (rq_message request) w2 = (Ok None, w3)
            /\ chat_sessions w3 = chat_sessions w2).
  { unfold router.auto_update_title. destruct (truthy fsid).
    - rewrite (bind_ok _ _ _ _ _ (get_session_by_id_run _ _ _ _)), Hlook.
      rewrite not_first_turn by assumption. now exists (bump w2).
    - now exists w2. }
  destruct Hauto as (w3 & Hauto & Hsame).
  exists w3. split; [|split; [assumption|split; [now rewrite Hsame|]]].
  - rewrite send_chat_message_split. unfold router.reraise_http.
    apply try_ok. rewrite (bind_ok _ _ _ _ _ Hreply).
    unfold router.turn_persist. rewrite (bind_ok _ _ _ _ _ Hlog).
    cbv zeta. rewrite Hfinal. now rewrite (bind_ok _ _ _ _ _ Hauto).
  - intros s Hs Hid Hu.
    pose proof (titles_kept_turn_reply env request user w) as K1.
    rewrite Hreply in K1. simpl in K1.
    pose proof (titles_kept_log_chat_message env (u_id user)
                  (rq_message request) ai (rq_session_id request) w1) as K2.
    rewrite Hlog in K2. simpl in K2.
    destruct (K1 s Hs) as (s1 & Hs1 & Hi1 & Hu1 & Ht1).
    destruct (K2 s1 Hs1) as (s2 & Hs2 & Hi2 & Hu2 & Ht2).
    assert (Hmatch : In s2 (filter (supabase_service.session_is fsid
                                      (u_id user)) (chat_sessions w2))).
    { apply filter_In. split; [assumption|].
      apply session_is_true. split; congruence. }
    rewrite Hfilter in Hmatch. destruct Hmatch as [<-|[]]. congruence.
Qed.

(** The fourth message of a session that still has the sentinel title. *)
Lemma settled_session_not_renamed_witness :
  exists w1 w2 ai stored cur,
    router.turn_reply (healthy_env (lit "Hi there"))
      (mkChatRequest (lit "Hello") (Some (uuid_str 43))) alice
      (world [alice_busy_session] []) = (Ok ai, w1)
    /\ supabase_service.log_chat_message (healthy_env (lit "Hi there"))
         (u_id alice) (lit "Hello") ai (Some (uuid_str 43)) w1
       = (Ok stored, w2)
    /\ dict_get (d_session_id stored) (Some (uuid_str 43))
       = Some (uuid_str 43)
    /\ session_lookup (healthy_env (lit "Hi there")) (uuid_str 43)
         (u_id alice) w2 = Some cur
    /\ (s_message_count cur <> 1 \/ s_title cur <> lit "New Chat")
    /\ exists w3,
         router.send_chat_message (healthy_env (lit "Hi there"))
           (mkChatRequest (lit "Hello") (Some (uuid_str 43))) alice
           (world [alice_busy_session] [])
         = (Ok {| r_message := ai; r_timestamp := d_created_at stored;
                  r_session_id := Some (uuid_str 43);
                  r_session_title := None |}, w3)
         /\ chat_sessions w3 = chat_sessions w2
         /\ In cur (chat_sessions w3)
         /\ (forall s, In s (chat_sessions (world [alice_busy_session] [])) ->
             s_id s = uuid_str 43 -> s_user_id s = u_id alice ->
             s_title cur = s_title s).
Proof.
  do 5 eexists.
  split; [vm_compute; reflexivity|].
  split; [vm_compute; reflexivity|].
  split; [vm_compute; reflexivity|].
  split; [vm_compute; reflexivity|].
  split; [left; vm_compute; discriminate|].
  eapply (settled_session_not_renamed (healthy_env (lit "Hi there"))
            (mkChatRequest (lit "Hello") (Some (uuid_str 43))) alice
            (world [alice_busy_session] [])).
  - vm_compute. reflexivity.
  - vm_compute. reflexivity.
  - vm_compute. reflexivity.
  - vm_compute. reflexivity.
  - left. vm_compute. discriminate.
Defined.

(** The branch does rename on the first message of a session created with
    the sentinel title, and only then. *)
Example first_message_renames :
  map (fun s => (s_title s, s_message_count s))
    (chat_sessions
       (snd (router.send_chat_message (healthy_env (lit "Hi there"))
               (mkChatRequest (lit " Hello") (Some (uuid_str 42))) alice
               (world [alice_session] []))))
  = [(lit "Hello", 1)].
Proof. reflexivity. Qed.

Example fourth_message_keeps_title :
  map (fun s => (s_title s, s_message_count s))
    (chat_sessions
       (snd (router.send_chat_message (healthy_env (lit "Hi there"))
               (mkChatRequest (lit " Hello") (Some (uuid_str 43))) alice
               (world [alice_busy_session] []))))
  = [(lit "New Chat", 4)].
Proof. reflexivity. Qed.

(** * Further properties of the code *)

(** ** Configuration and start-up *)

Lemma truthy_nonempty (s : str) : truthy s = true <-> s <> [].
Proof. destruct s; simpl; split; congruence. Qed.

Lemma falsy_empty (s : str) : negb (truthy s) = true <-> s = [].
Proof. destruct s; simpl; split; congruence. Qed.

Lemma validate_config_ok (s : config.Settings) :
  config.validate_config s = Ok true
  <-> config.OPENAI_API_KEY s <> [] /\ config.SUPABASE_URL s <> []
      /\ config.SUPABASE_ANON_KEY s <> [].
Proof.
  unfold config.validate_config, config.missing_vars.
  destruct (config.OPENAI_API_KEY s), (config.SUPABASE_URL s),
    (config.SUPABASE_ANON_KEY s); cbn [truthy negb app]; split;
    try (intros H; discriminate H);
    try (intros (H1 & H2 & H3); congruence);
    try (intros _; repeat split; discriminate).
Qed.

Lemma missing_vars_unset (s : config.Settings) :
  config.missing_vars s = unset_variables s.
Proof.
  unfold config.missing_vars, unset_variables, required_variables.
  cbn [filter snd].
  destruct (negb (truthy (config.OPENAI_API_KEY s)));
    destruct (negb (truthy (config.SUPABASE_URL s)));
    destruct (negb (truthy (config.SUPABASE_ANON_KEY s))); reflexivity.
Qed.

Lemma validate_config_raises (s : config.Settings) :
  config.validate_config s <> Ok true ->
  config.validate_config s
  = Raise (Exception
             (lit "Missing required environment variables: "
              ++ join (lit ", ") (unset_variables s))).
Proof.
  unfold config.validate_config. rewrite missing_vars_unset.
  destruct (unset_variables s); [intros H; now elim H | reflexivity].
Qed.

(** X1. [validate_config] returns [True] exactly when the completion key,
    the datastore URL and the datastore anon key are all set. Otherwise it
    raises, and the message names the unset ones among OPENAI_API_KEY,
    SUPABASE_URL and SUPABASE_ANON_KEY, each once, in this order, separated
    by ", ", and nothing else. The service-role key is never asked for. *)
Theorem validate_config_requires_three_keys (s : config.Settings) :
  (config.validate_config s = Ok true
   <-> config.OPENAI_API_KEY s <> [] /\ config.SUPABASE_URL s <> []
       /\ config.SUPABASE_ANON_KEY s <> [])
  /\ (config.validate_config s <> Ok true ->
      config.validate_config s
      = Raise (Exception
                 (lit "Missing required environment variables: "
                  ++ join (lit ", ") (unset_variables s)))).
Proof.
  split; [apply validate_config_ok | apply validate_config_raises].
Qed.

Example validate_config_names_missing :
  config.validate_config
    {| config.OPENAI_API_KEY := []; config.SUPABASE_URL := lit "https://db";
       config.SUPABASE_ANON_KEY := [];
       config.SUPABASE_SERVICE_ROLE_KEY := lit "role" |}
  = Raise (Exception
             (lit "Missing required environment variables: OPENAI_API_KEY, SUPABASE_ANON_KEY")).
Proof. reflexivity. Qed.

(** X2. When [validate_config] accepts the settings, neither service
    constructor raises an error of its own: each reaches the client
    constructor of its library and has the outcome of that call. The
    datastore client is asked for with the configured URL and with the
    service-role key when there is one, the anon key otherwise; the
    completion client with the configured API key. *)
Theorem valid_config_reaches_client_constructors
    {C : Type} (create_client : str -> str -> Result supabase_service.Client)
    (OpenAI : str -> Result C) (s : config.Settings) :
  config.validate_config s = Ok true ->
  supabase_service.init create_client s
    = create_client (config.SUPABASE_URL s)
        (if truthy (config.SUPABASE_SERVICE_ROLE_KEY s)
         then config.SUPABASE_SERVICE_ROLE_KEY s
         else config.SUPABASE_ANON_KEY s)
  /\ openai_service.init OpenAI s = OpenAI (config.OPENAI_API_KEY s).
Proof.
  intros H.
  apply validate_config_ok in H as (Hk & Hu & Ha).
  apply truthy_nonempty in Hk, Hu, Ha.
  unfold supabase_service.init, openai_service.init.
  rewrite Hk, Hu, Ha. simpl negb. cbv iota.
  destruct (truthy (config.SUPABASE_SERVICE_ROLE_KEY s)); split; reflexivity.
Qed.

(** Accepted settings whose URL the datastore library refuses. *)
Lemma valid_config_reaches_client_constructors_witness :
  config.validate_config
    {| config.OPENAI_API_KEY := lit "sk-test";
       config.SUPABASE_URL := lit "db";
       config.SUPABASE_ANON_KEY := lit "anon";
       config.SUPABASE_SERVICE_ROLE_KEY := [] |} = Ok true
  /\ supabase_service.init sample_create_client
       {| config.OPENAI_API_KEY := lit "sk-test";
          config.SUPABASE_URL := lit "db";
          config.SUPABASE_ANON_KEY := lit "anon";
          config.SUPABASE_SERVICE_ROLE_KEY := [] |}
     = sample_create_client (lit "db") (lit "anon").
Proof.
  split; [reflexivity|].
  apply (valid_config_reaches_client_constructors sample_create_client
           (fun k => Ok k)
           {| config.OPENAI_API_KEY := lit "sk-test";
              config.SUPABASE_URL := lit "db";
              config.SUPABASE_ANON_KEY := lit "anon";
              config.SUPABASE_SERVICE_ROLE_KEY := [] |}).
  reflexivity.
Defined.

(** The converse fails: the datastore constructor passes its own checks on
    a service-role key alone, which [validate_config] rejects. *)
Example service_role_key_alone :
  supabase_service.init sample_create_client
    {| config.OPENAI_API_KEY := lit "sk-test";
       config.SUPABASE_URL := lit "https://db";
       config.SUPABASE_ANON_KEY := [];
       config.SUPABASE_SERVICE_ROLE_KEY := lit "role" |}
  = Ok {| supabase_service.client_url := lit "https://db";
          supabase_service.client_key := lit "role" |}
  /\ config.validate_config
       {| config.OPENAI_API_KEY := lit "sk-test";
          config.SUPABASE_URL := lit "https://db";
          config.SUPABASE_ANON_KEY := [];
          config.SUPABASE_SERVICE_ROLE_KEY := lit "role" |}
     = Raise (Exception
                (lit "Missing required environment variables: SUPABASE_ANON_KEY")).
Proof. split; reflexivity. Qed.

(** ** The completion facade *)

Lemma truthy_false (s : str) : truthy s = false <-> s = [].
Proof. destruct s; simpl; split; congruence. Qed.

Lemma strip_nil : strip [] = [].
Proof. reflexivity. Qed.

(** X3. [validate_message] accepts a message exactly when the request
    schema does (between 1 and 2000 characters) and the message is not made
    of whitespace only. *)
Theorem validate_message_is_schema_and_not_blank (m : str) :
  openai_service.validate_message m = true
  <-> valid_message m = true /\ strip m <> [].
Proof.
  unfold openai_service.validate_message, valid_message. split.
  - intros H. destruct (truthy m) eqn:Tm; [|discriminate].
    destruct (truthy (strip m)) eqn:Ts; [|discriminate].
    cbn [negb orb] in H.
    destruct (2000 <? length m) eqn:L; [discriminate|].
    apply Nat.ltb_ge in L. apply truthy_nonempty in Tm, Ts.
    split; [|assumption].
    apply andb_true_iff. split; apply Nat.leb_le; [|assumption].
    destruct m; [congruence | cbn [length]; lia].
  - intros [Hv Hs]. apply andb_true_iff in Hv as [H1 H2].
    apply Nat.leb_le in H1, H2.
    assert (Tm : truthy m = true)
      by (destruct m; [cbn [length] in H1; lia | reflexivity]).
    rewrite Tm, (proj2 (truthy_nonempty _) Hs). cbn [negb orb].
    destruct (2000 <? length m) eqn:L; [|reflexivity].
    apply Nat.ltb_lt in L. lia.
Qed.

Example blank_message_passes_schema_only :
  valid_message (lit "   ") = true
  /\ openai_service.validate_message (lit "   ") = false.
Proof. split; reflexivity. Qed.

Lemma history_roles (l : list ContextRow) :
  map role (flat_map openai_service.history_turns l)
  = concat (repeat [RoleUser; RoleAssistant] (length l)).
Proof.
  induction l as [|c l IH]; [reflexivity|]. simpl. now rewrite IH.
Qed.

Lemma last_n_length {A} (n : nat) (l : list A) :
  length (last_n n l) = Nat.min (length l) n.
Proof. unfold last_n. rewrite length_skipn. lia. Qed.

(** X4. Whatever the history, the prompt is the system instruction, then,
    for each of the last five records of the history (all of them when
    there are fewer), in order, a user turn with the record's user message
    and an assistant turn with its reply, then the new message as the last
    user turn. *)
Theorem prompt_shape (env : Env) (msg : str) (h : list ContextRow) :
  (exists older recent,
     h = older ++ recent
     /\ length recent = Nat.min (length h) 5
     /\ openai_service.build_messages env msg h
        = [ {| role := RoleSystem; content := SYSTEM_PROMPT env |} ]
          ++ flat_map
               (fun c => [ {| role := RoleUser;
                              content := c_user_message c |};
                           {| role := RoleAssistant;
                              content := c_ai_response c |} ])
               recent
          ++ [ {| role := RoleUser; content := msg |} ])
  /\ map role (openai_service.build_messages env msg h)
     = [RoleSystem]
       ++ concat (repeat [RoleUser; RoleAssistant] (Nat.min (length h) 5))
       ++ [RoleUser]
  /\ length (openai_service.build_messages env msg h)
     = 2 + 2 * Nat.min (length h) 5
  /\ hd_error (openai_service.build_messages env msg h)
     = Some {| role := RoleSystem; content := SYSTEM_PROMPT env |}
  /\ last (openai_service.build_messages env msg h)
       {| role := RoleSystem; content := [] |}
     = {| role := RoleUser; content := msg |}.
Proof.
  split.
  { exists (firstn (length h - 5) h), (skipn (length h - 5) h).
    split; [now rewrite firstn_skipn|].
    split; [rewrite length_skipn; lia | reflexivity]. }
  unfold openai_service.build_messages.
  rewrite !map_app, history_roles, last_n_length.
  split; [reflexivity|]. split; [|split; [reflexivity|]].
  - rewrite !length_app. cbn [length].
    pose proof (f_equal (@length Role) (history_roles (last_n 5 h))) as E.
    rewrite length_map in E. rewrite E, last_n_length.
    clear E. induction (Nat.min (length h) 5) as [|n IH]; simpl in *; lia.
  - rewrite app_assoc. apply last_last.
Qed.

Lemma lstrip_spaces (c : str) : forallb isspace c = true -> lstrip c = [].
Proof.
  induction c as [|x c IH]; [reflexivity|]. simpl.
  intros H. apply andb_true_iff in H as [Hx Hc]. rewrite Hx. now apply IH.
Qed.

(** X5. A completion made of whitespace only is not treated as empty: the
    emptiness test comes before the trimming, so the facade returns the
    empty string as a successful reply. *)
Theorem blank_completion_is_empty_reply
    (env : Env) (msg c : str) (ctx : list ContextRow) (w : World) :
  c <> [] ->
  forallb isspace c = true ->
  completions_create env (openai_service.build_messages env msg ctx)
    = Content (Some c) ->
  fst (openai_service.get_chat_response env msg ctx w) = Ok [].
Proof.
  intros Hne Hsp Hc.
  unfold openai_service.get_chat_response,
    openai_service.generate_fitness_response, bind, record_prompt, modify.
  cbv zeta. rewrite Hc.
  change (truthy_opt (Some c)) with (truthy c).
  rewrite (proj2 (truthy_nonempty c) Hne).
  unfold strip. rewrite lstrip_spaces by assumption. reflexivity.
Qed.

Lemma blank_completion_is_empty_reply_witness :
  lit "  " <> []
  /\ forallb isspace (lit "  ") = true
  /\ completions_create (healthy_env (lit "  "))
       (openai_service.build_messages (healthy_env (lit "  "))
          (lit "Hello") [])
     = Content (Some (lit "  "))
  /\ fst (openai_service.get_chat_response (healthy_env (lit "  "))
            (lit "Hello") [] (world [] [])) = Ok [].
Proof.
  split; [discriminate|]. split; [reflexivity|]. split; [reflexivity|].
  apply (blank_completion_is_empty_reply (healthy_env (lit "  "))
           (lit "Hello") (lit "  ") [] (world [] []));
    [discriminate | reflexivity | reflexivity].
Defined.

(** The chat endpoint then answers with an empty message. *)
Example blank_completion_chat_turn :
  fst (router.send_chat_message (healthy_env (lit "  "))
         (mkChatRequest (lit "Hello") None) alice (world [] []))
  = Ok {| r_message := []; r_timestamp := 106;
          r_session_id := Some (uuid_str 1001); r_session_title := None |}.
Proof. reflexivity. Qed.

(** ** Failures of authentication *)

(** X6. The authentication dependency either returns the user the identity
    provider gives for the header with ["Bearer "] removed, or fails with
    status 401. The detail is "Authorization header required" exactly when
    the header is missing or empty and "Authentication failed" in every
    other case: the detail "Invalid or expired token" never reaches the
    caller. *)
Theorem authentication_fails_with_401
    (env : Env) (authorization : option str) (w : World) :
  exists r,
    router.get_current_user env authorization w = (r, w)
    /\ match r with
       | Ok u =>
           exists a, authorization = Some a /\ a <> []
                     /\ auth_get_user env (replace (lit "Bearer ") [] a)
                        = AuthUser u
       | Raise e =>
           (truthy_opt authorization = false
            /\ e = HTTPException 401 (lit "Authorization header required"))
           \/ (truthy_opt authorization = true
               /\ e = HTTPException 401 (lit "Authentication failed"))
       end.
Proof.
  unfold router.get_current_user.
  destruct authorization as [[|c a]|].
  - eexists. split; [reflexivity|]. left. now split.
  - change (truthy (c :: a)) with true. cbn [negb]. cbv iota.
    unfold try_except, supabase_service.validate_user_token.
    destruct (auth_get_user env _) as [m| |u] eqn:E.
    + eexists. split; [reflexivity|]. right. now split.
    + eexists. split; [reflexivity|]. right. now split.
    + eexists. split; [reflexivity|]. exists (c :: a).
      split; [reflexivity|]. split; [discriminate | exact E].
  - eexists. split; [reflexivity|]. left. now split.
Qed.

(** ** What a computation leaves untouched *)

Section Keeps.

Context {B : Type} (proj : World -> B).

Lemma keeps_ret {A} (a : A) : keeps proj (ret a).
Proof. intros w. reflexivity. Qed.

Lemma keeps_raise {A} (e : exn) : keeps proj (@raise A e).
Proof. intros w. reflexivity. Qed.

Lemma keeps_gets {A} (f : World -> A) : keeps proj (gets f).
Proof. intros w. reflexivity. Qed.

Lemma keeps_bind {A C} (c : M A) (k : A -> M C) :
  keeps proj c -> (forall a, keeps proj (k a)) -> keeps proj (bind c k).
Proof.
  intros Hc Hk w. unfold bind. specialize (Hc w).
  destruct (c w) as [[a|e] w1]; simpl in *; [|assumption].
  now rewrite Hk.
Qed.

Lemma keeps_try {A} (c : M A) (h : exn -> M A) :
  keeps proj c -> (forall e, keeps proj (h e)) -> keeps proj (try_except c h).
Proof.
  intros Hc Hh w. unfold try_except. specialize (Hc w).
  destruct (c w) as [[a|e] w1]; simpl in *; [assumption|].
  now rewrite Hh.
Qed.

Lemma keeps_mapM {A C} (f : A -> M C) (l : list A) :
  (forall a, keeps proj (f a)) -> keeps proj (mapM f l).
Proof.
  intros Hf. induction l as [|a l IH]; simpl; [apply keeps_ret|].
  apply keeps_bind; [apply Hf|]. intros b.
  apply keeps_bind; [apply IH|]. intros bs. apply keeps_ret.
Qed.

Hypothesis proj_tick : forall w, proj (bump w) = proj w.

Lemma keeps_tick : keeps proj tick.
Proof. intros w. apply proj_tick. Qed.

Lemma keeps_uuid4 (env : Env) : keeps proj (uuid4 env).
Proof.
  apply keeps_bind; [apply keeps_tick | intros; apply keeps_ret].
Qed.

Lemma keeps_utcnow (env : Env) : keeps proj (utcnow env).
Proof.
  apply keeps_bind; [apply keeps_tick | intros; apply keeps_ret].
Qed.

Lemma keeps_execute {A} (env : Env) (blank : A) (run : M A) :
  keeps proj run -> keeps proj (supabase_service.execute env blank run).
Proof.
  intros Hr. apply keeps_bind; [apply keeps_tick|]. intros k.
  destruct (fault_at env k) as [[m|]|].
  - apply keeps_raise.
  - apply keeps_bind; [assumption | intros; apply keeps_ret].
  - assumption.
Qed.

End Keeps.

Lemma keeps_messages_set_sessions (f : list SessionRow -> list SessionRow) :
  keeps chat_messages (set_sessions f).
Proof. intros w. reflexivity. Qed.

Lemma keeps_sessions_set_messages (f : list MessageRow -> list MessageRow) :
  keeps chat_sessions (set_messages f).
Proof. intros w. reflexivity. Qed.

Lemma keeps_sessions_record_prompt (p : list ChatMsg) :
  keeps chat_sessions (record_prompt p).
Proof. intros w. reflexivity. Qed.

Lemma keeps_messages_record_prompt (p : list ChatMsg) :
  keeps chat_messages (record_prompt p).
Proof. intros w. reflexivity. Qed.

Create HintDb keeps.

(** A structural walk for [keeps]. *)
Ltac keeps_step :=
  first
    [ apply keeps_ret
    | apply keeps_raise
    | apply keeps_gets
    | apply keeps_tick; intros; reflexivity
    | apply keeps_uuid4; intros; reflexivity
    | apply keeps_utcnow; intros; reflexivity
    | apply keeps_messages_set_sessions
    | apply keeps_sessions_set_messages
    | apply keeps_sessions_record_prompt
    | apply keeps_messages_record_prompt
    | solve [auto with keeps nocore]
    | apply keeps_mapM
    | apply keeps_execute; [intros; reflexivity|]
    | apply keeps_try
    | apply keeps_bind
    | match goal with
      | |- keeps _ (match ?x with _ => _ end) => destruct x
      end ].

Ltac keeps_walk := repeat (intros; cbv beta zeta; keeps_step).

Lemma get_session_by_id_reads (env : Env) (sid uid : str) :
  reads_only (supabase_service.get_session_by_id env sid uid).
Proof.
  unfold reads_only, supabase_service.get_session_by_id,
    supabase_service.select_single_session, supabase_service.single.
  split; keeps_walk.
Qed.

#[export] Hint Extern 1 (keeps chat_sessions
                           (supabase_service.get_session_by_id _ _ _)) =>
  apply get_session_by_id_reads : keeps.
#[export] Hint Extern 1 (keeps chat_messages
                           (supabase_service.get_session_by_id _ _ _)) =>
  apply get_session_by_id_reads : keeps.

Lemma get_recent_context_reads (env : Env) (uid : str) (sid : option str)
    (n : nat) :
  reads_only (supabase_service.get_recent_context env uid sid n).
Proof.
  unfold reads_only, supabase_service.get_recent_context,
    supabase_service.select_messages.
  split; keeps_walk.
Qed.

#[export] Hint Extern 1 (keeps chat_sessions
                           (supabase_service.get_recent_context _ _ _ _)) =>
  apply get_recent_context_reads : keeps.
#[export] Hint Extern 1 (keeps chat_messages
                           (supabase_service.get_recent_context _ _ _ _)) =>
  apply get_recent_context_reads : keeps.

Lemma get_chat_history_reads (env : Env) (uid : str) (sid : option str)
    (n : nat) :
  reads_only (supabase_service.get_chat_history env uid sid n).
Proof.
  unfold reads_only, supabase_service.get_chat_history,
    supabase_service.select_messages.
  split; keeps_walk.
Qed.

#[export] Hint Extern 1 (keeps chat_sessions
                           (supabase_service.get_chat_history _ _ _ _)) =>
  apply get_chat_history_reads : keeps.
#[export] Hint Extern 1 (keeps chat_messages
                           (supabase_service.get_chat_history _ _ _ _)) =>
  apply get_chat_history_reads : keeps.

Lemma get_user_sessions_reads (env : Env) (uid : str) (n : nat) :
  reads_only (supabase_service.get_user_sessions env uid n).
Proof.
  unfold reads_only, supabase_service.get_user_sessions,
    supabase_service.select_sessions.
  split; keeps_walk.
Qed.

#[export] Hint Extern 1 (keeps chat_sessions
                           (supabase_service.get_user_sessions _ _ _)) =>
  apply get_user_sessions_reads : keeps.
#[export] Hint Extern 1 (keeps chat_messages
                           (supabase_service.get_user_sessions _ _ _)) =>
  apply get_user_sessions_reads : keeps.

Lemma validate_session_reads (env : Env) (sid : option str) (uid : str) :
  reads_only (router.validate_session env sid uid).
Proof.
  unfold reads_only, router.validate_session, router.not_found.
  split; keeps_walk.
Qed.

#[export] Hint Extern 1 (keeps chat_sessions
                           (router.validate_session _ _ _)) =>
  apply validate_session_reads : keeps.
#[export] Hint Extern 1 (keeps chat_messages
                           (router.validate_session _ _ _)) =>
  apply validate_session_reads : keeps.

(** X7. The three reading endpoints (the list of sessions, the history of
    a session, the history of the caller) leave both tables as they are,
    whatever the datastore does and whether they answer or fail. *)
Theorem reading_endpoints_write_nothing
    (env : Env) (user : User) (sid : str) (osid : option str) (n : nat) :
  reads_only (router.get_user_sessions env user n)
  /\ reads_only (router.get_session_history env sid user n)
  /\ reads_only (router.get_chat_history env n osid user).
Proof.
  unfold reads_only, router.get_user_sessions, router.get_session_history,
    router.get_chat_history, router.all_to_500, router.reraise_http,
    router.chat_history_model, router.not_found.
  repeat split; keeps_walk.
Qed.

(** ** A failed completion *)

Lemma get_chat_response_reads (env : Env) (msg : str)
    (ctx : list ContextRow) :
  reads_only (openai_service.get_chat_response env msg ctx).
Proof.
  unfold reads_only, openai_service.get_chat_response,
    openai_service.generate_fitness_response.
  split; keeps_walk.
Qed.

#[export] Hint Extern 1 (keeps chat_sessions
                           (openai_service.get_chat_response _ _ _)) =>
  apply get_chat_response_reads : keeps.
#[export] Hint Extern 1 (keeps chat_messages
                           (openai_service.get_chat_response _ _ _)) =>
  apply get_chat_response_reads : keeps.

Lemma turn_reply_reads (env : Env) (request : ChatRequest) (user : User) :
  reads_only (router.turn_reply env request user).
Proof.
  unfold reads_only, router.turn_reply.
  split; keeps_walk.
Qed.

Lemma get_chat_response_fails (env : Env) (msg : str)
    (ctx : list ContextRow) (w : World) :
  api_failed (completions_create env
                (openai_service.build_messages env msg ctx)) = true ->
  exists m, fst (openai_service.get_chat_response env msg ctx w)
            = Raise (Exception m).
Proof.
  intros H.
  unfold openai_service.get_chat_response,
    openai_service.generate_fitness_response, bind, record_prompt, modify.
  cbv zeta.
  destruct (completions_create env _) as [| | m | m | c];
    try (eexists; reflexivity).
  simpl in H. apply negb_true_iff in H. rewrite H. eexists. reflexivity.
Qed.

Lemma validate_session_cases (env : Env) (sid : option str) (uid : str)
    (w : World) :
  fst (router.validate_session env sid uid w) = Ok tt
  \/ fst (router.validate_session env sid uid w) = Raise router.not_found.
Proof.
  unfold router.validate_session.
  destruct sid as [s|]; [destruct (truthy s)|]; try (now left).
  unfold bind. rewrite get_session_by_id_run.
  destruct (session_lookup env s uid w); [now left | now right].
Qed.

Lemma get_recent_context_returns (env : Env) (uid : str)
    (sid : option str) (n : nat) :
  returns (supabase_service.get_recent_context env uid sid n) (fun _ => True).
Proof. apply returns_try. intros e. now apply returns_ret. Qed.

Lemma validate_session_run (env : Env) (sid : option str) (uid : str)
    (w : World) :
  router.validate_session env sid uid w
  = match sid with
    | Some s =>
        if truthy s
        then (match session_lookup env s uid w with
              | Some _ => Ok tt
              | None => Raise router.not_found
              end, bump w)
        else (Ok tt, w)
    | None => (Ok tt, w)
    end.
Proof.
  unfold router.validate_session.
  destruct sid as [s|]; [destruct (truthy s)|]; try reflexivity.
  unfold bind. rewrite get_session_by_id_run.
  destruct (session_lookup env s uid w); reflexivity.
Qed.

Lemma turn_reply_after_check (env : Env) (request : ChatRequest)
    (user : User) (w w0 : World) :
  (forall p, api_failed (completions_create env p) = true) ->
  router.validate_session env (rq_session_id request) (u_id user) w
    = (Ok tt, w0) ->
  exists m w1,
    router.turn_reply env request user w = (Raise (Exception m), w1).
Proof.
  intros Hfail Hv. unfold router.turn_reply.
  rewrite (bind_ok _ _ _ _ _ Hv). unfold bind.
  destruct (get_recent_context_returns env (u_id user)
              (rq_session_id request) 5 w0) as (ctx & w2 & -> & _).
  destruct (get_chat_response_fails env (rq_message request) ctx w2
              (Hfail _)) as (m & Hm).
  destruct (openai_service.get_chat_response env _ ctx w2) as [r w3].
  simpl in Hm. subst r. now exists m, w3.
Qed.

Lemma send_after_failed_reply (env : Env) (request : ChatRequest)
    (user : User) (w w1 : World) (e : exn) :
  router.turn_reply env request user w = (Raise e, w1) ->
  router.send_chat_message env request user w
  = (Raise match e with
           | HTTPException _ _ => e
           | Exception _ =>
               HTTPException 500 (lit "Failed to process chat message")
           end, w1)
  /\ same_tables w w1.
Proof.
  intros Hturn.
  destruct (turn_reply_reads env request user) as [Ks Km].
  specialize (Ks w). specialize (Km w). rewrite Hturn in Ks, Km.
  simpl in Ks, Km. split; [|now split].
  rewrite send_chat_message_split. unfold router.reraise_http, try_except.
  rewrite (bind_raise _ _ _ _ _ Hturn). destruct e; reflexivity.
Qed.

(** X8. When the completion provider fails in any way (rate limit,
    authentication, API error, missing or empty content), the chat endpoint
    fails and nothing has been written: both tables are as before the turn.
    The answer is 404 exactly when a non-empty session identifier was
    supplied and its lookup found no session of the caller, so in
    particular when the session does not exist or belongs to someone else;
    it is 500 "Failed to process chat message" when no session identifier
    was supplied, and when the datastore answers the lookup and the session
    is the caller's. *)
Theorem failed_completion_writes_nothing
    (env : Env) (request : ChatRequest) (user : User) (w : World) :
  (forall p, api_failed (completions_create env p) = true) ->
  exists e w',
    router.send_chat_message env request user w = (Raise e, w')
    /\ same_tables w w'
    /\ (e = router.not_found
        \/ e = HTTPException 500 (lit "Failed to process chat message"))
    /\ (e = router.not_found
        <-> exists sid, rq_session_id request = Some sid /\ sid <> []
                        /\ session_lookup env sid (u_id user) w = None)
    /\ (forall sid, rq_session_id request = Some sid -> sid <> [] ->
        not_owned sid (u_id user) w -> e = router.not_found)
    /\ (truthy_opt (rq_session_id request) = false ->
        e = HTTPException 500 (lit "Failed to process chat message"))
    /\ (forall sid s, rq_session_id request = Some sid ->
        fault_at env (step w) = None ->
        filter (supabase_service.session_is sid (u_id user))
          (chat_sessions w) = [s] ->
        e = HTTPException 500 (lit "Failed to process chat message")).
Proof.
  intros Hfail.
  pose proof (validate_session_run env (rq_session_id request) (u_id user) w)
    as Hv.
  destruct (rq_session_id request) as [sid|] eqn:Es;
    [destruct (truthy sid) eqn:Et;
      [destruct (session_lookup env sid (u_id user) w) as [cur|] eqn:El|]|].
  - (* the session is found *)
    destruct (turn_reply_after_check env request user w _ Hfail
                ltac:(rewrite Es; exact Hv)) as (m & w1 & Hturn).
    destruct (send_after_failed_reply env request user w w1 _ Hturn)
      as [Hsend Hsame].
    eexists. exists w1. split; [exact Hsend|]. split; [exact Hsame|].
    split; [now right|]. split; [|split; [|split]].
    + split; [discriminate|]. intros (sid' & [= <-] & _ & Hnone). congruence.
    + intros sid' [= <-] _ Hno.
      rewrite not_owned_lookup in El by assumption. discriminate.
    + reflexivity.
    + reflexivity.
  - (* the session is not found *)
    assert (Hturn : router.turn_reply env request user w
                    = (Raise router.not_found, bump w)).
    { unfold router.turn_reply. rewrite Es. now apply bind_raise. }
    destruct (send_after_failed_reply env request user w _ _ Hturn)
      as [Hsend Hsame].
    exists router.not_found, (bump w).
    split; [exact Hsend|]. split; [exact Hsame|].
    split; [now left|]. split; [|split; [|split]].
    + split; [|reflexivity]. intros _. exists sid.
      split; [reflexivity|]. split; [now apply truthy_nonempty | exact El].
    + reflexivity.
    + simpl. rewrite Et. discriminate.
    + intros sid' s [= <-] Hup Hone. unfold session_lookup in El.
      rewrite Hup, Hone in El. discriminate.
  - (* an empty session identifier *)
    destruct (turn_reply_after_check env request user w _ Hfail
                ltac:(rewrite Es; exact Hv)) as (m & w1 & Hturn).
    destruct (send_after_failed_reply env request user w w1 _ Hturn)
      as [Hsend Hsame].
    eexists. exists w1. split; [exact Hsend|]. split; [exact Hsame|].
    split; [now right|]. split; [|split; [|split]].
    + split; [discriminate|]. intros (sid' & [= <-] & Hne & _).
      apply truthy_nonempty in Hne. congruence.
    + intros sid' [= <-] Hne _. apply truthy_nonempty in Hne. congruence.
    + reflexivity.
    + reflexivity.
  - (* no session identifier *)
    destruct (turn_reply_after_check env request user w _ Hfail
                ltac:(rewrite Es; exact Hv)) as (m & w1 & Hturn).
    destruct (send_after_failed_reply env request user w w1 _ Hturn)
      as [Hsend Hsame].
    eexists. exists w1. split; [exact Hsend|]. split; [exact Hsame|].
    split; [now right|]. split; [|split; [|split]].
    + split; [discriminate|]. intros (sid' & [=] & _).
    + intros sid' [=].
    + reflexivity.
    + intros sid' s [=].
Qed.

(** The completion provider is rate limited while Alice writes in Bob's
    session. *)
Lemma failed_completion_writes_nothing_witness :
  (forall p,
     api_failed
       (completions_create
          (mkEnv [] (fun _ => 0%N) (fun _ => 0) (fun _ => None)
             (fun _ => RateLimitError) (fun _ => AuthNoUser)) p) = true)
  /\ exists e w',
       router.send_chat_message
         (mkEnv [] (fun _ => 0%N) (fun _ => 0) (fun _ => None)
            (fun _ => RateLimitError) (fun _ => AuthNoUser))
         (mkChatRequest (lit "Hello") (Some (uuid_str 7))) alice
         (world [bob_session] [bob_message]) = (Raise e, w')
       /\ same_tables (world [bob_session] [bob_message]) w'
       /\ (e = router.not_found
           \/ e = HTTPException 500 (lit "Failed to process chat message"))
       /\ (e = router.not_found
           <-> exists sid,
                 rq_session_id
                   (mkChatRequest (lit "Hello") (Some (uuid_str 7)))
                 = Some sid /\ sid <> []
                 /\ session_lookup
                      (mkEnv [] (fun _ => 0%N) (fun _ => 0) (fun _ => None)
                         (fun _ => RateLimitError) (fun _ => AuthNoUser))
                      sid (u_id alice) (world [bob_session] [bob_message])
                    = None)
       /\ (forall sid,
             rq_session_id (mkChatRequest (lit "Hello") (Some (uuid_str 7)))
             = Some sid -> sid <> [] ->
             not_owned sid (u_id alice) (world [bob_session] [bob_message]) ->
             e = router.not_found)
       /\ (truthy_opt
             (rq_session_id (mkChatRequest (lit "Hello") (Some (uuid_str 7))))
           = false ->
           e = HTTPException 500 (lit "Failed to process chat message"))
       /\ (forall sid s,
             rq_session_id (mkChatRequest (lit "Hello") (Some (uuid_str 7)))
             = Some sid ->
             fault_at
               (mkEnv [] (fun _ => 0%N) (fun _ => 0) (fun _ => None)
                  (fun _ => RateLimitError) (fun _ => AuthNoUser))
               (step (world [bob_session] [bob_message])) = None ->
             filter (supabase_service.session_is sid (u_id alice))
               (chat_sessions (world [bob_session] [bob_message])) = [s] ->
             e = HTTPException 500 (lit "Failed to process chat message")).
Proof.
  split; [intros p; reflexivity|].
  apply (failed_completion_writes_nothing
           (mkEnv [] (fun _ => 0%N) (fun _ => 0) (fun _ => None)
              (fun _ => RateLimitError) (fun _ => AuthNoUser))
           (mkChatRequest (lit "Hello") (Some (uuid_str 7))) alice
           (world [bob_session] [bob_message])).
  intros p. reflexivity.
Defined.

Example failed_completion_in_foreign_session :
  fst (router.send_chat_message
         (mkEnv [] (fun _ => 0%N) (fun _ => 0) (fun _ => None)
            (fun _ => RateLimitError) (fun _ => AuthNoUser))
         (mkChatRequest (lit "Hello") (Some (uuid_str 7))) alice
         (world [bob_session] [bob_message]))
  = Raise router.not_found.
Proof. reflexivity. Qed.

Example failed_completion_in_own_session :
  fst (router.send_chat_message
         (mkEnv [] (fun _ => 0%N) (fun _ => 0) (fun _ => None)
            (fun _ => RateLimitError) (fun _ => AuthNoUser))
         (mkChatRequest (lit "Hello") (Some (uuid_str 7))) bob
         (world [bob_session] [bob_message]))
  = Raise (HTTPException 500 (lit "Failed to process chat message")).
Proof. reflexivity. Qed.

(** ** Listing sessions and reading history *)

Section Windows.

Context {A : Type} (key : A -> nat).

Lemma insert_by_oldest_first (a : A) (l : list A) :
  oldest_first key l -> oldest_first key (insert_by (asc key) a l).
Proof.
  unfold oldest_first. induction l as [|b l IH]; intros Hs; simpl.
  - constructor; constructor.
  - inversion Hs as [|? ? Hl Hb]; subst. unfold asc at 1.
    destruct (key a <=? key b) eqn:E.
    + apply Nat.leb_le in E. constructor; [assumption|].
      constructor; [assumption|].
      eapply Forall_impl; [|exact Hb]. simpl. intros; lia.
    + apply Nat.leb_gt in E. constructor; [now apply IH|].
      rewrite Forall_forall. intros y Hy.
      apply (Permutation_in _ (insert_by_perm (asc key) a l)) in Hy.
      destruct Hy as [<-|Hy]; [lia|].
      rewrite Forall_forall in Hb. now apply Hb.
Qed.

Lemma order_by_oldest_first (l : list A) :
  oldest_first key (order_by (asc key) l).
Proof.
  induction l as [|a l IH]; simpl; [constructor|].
  now apply insert_by_oldest_first.
Qed.

Lemma oldest_first_split (l1 l2 : list A) :
  oldest_first key (l1 ++ l2) ->
  oldest_first key l1
  /\ (forall x y, In x l1 -> In y l2 -> key x <= key y).
Proof.
  unfold oldest_first. induction l1 as [|a l1 IH]; simpl; intros H.
  - split; [constructor | intros x y []].
  - inversion H as [|? ? Hl Ha]; subst. destruct (IH Hl) as [H1 H2].
    rewrite Forall_app in Ha. destruct Ha as [Ha1 Ha2]. split.
    + now constructor.
    + intros x y [<-|Hx] Hy; [|now apply H2].
      rewrite Forall_forall in Ha2. now apply Ha2.
Qed.

(** The first [n] rows of an oldest-first ordering are the [n] oldest. *)
Lemma oldest_window (n : nat) (l : list A) :
  let sorted := order_by (asc key) l in
  Permutation (firstn n sorted ++ skipn n sorted) l
  /\ length (firstn n sorted) = Nat.min (length l) n
  /\ oldest_first key (firstn n sorted)
  /\ (forall x y, In x (firstn n sorted) -> In y (skipn n sorted) ->
      key x <= key y).
Proof.
  intros sorted.
  pose proof (order_by_perm (asc key) l) as Hp. fold sorted in Hp.
  pose proof (order_by_oldest_first l) as Hs. fold sorted in Hs.
  rewrite <- (firstn_skipn n sorted) in Hs.
  apply oldest_first_split in Hs as [Hs1 Hs2].
  split; [now rewrite firstn_skipn|]. split; [|split; assumption].
  rewrite length_firstn, (Permutation_length Hp). lia.
Qed.

(** The first [n] rows of a newest-first ordering are the [n] newest. *)
Lemma newest_window (n : nat) (l : list A) :
  let sorted := order_by (desc key) l in
  Permutation (firstn n sorted ++ skipn n sorted) l
  /\ length (firstn n sorted) = Nat.min (length l) n
  /\ newest_first key (firstn n sorted)
  /\ (forall x y, In x (firstn n sorted) -> In y (skipn n sorted) ->
      key y <= key x).
Proof.
  intros sorted.
  pose proof (order_by_perm (desc key) l) as Hp. fold sorted in Hp.
  pose proof (order_by_newest_first key l) as Hs. fold sorted in Hs.
  rewrite <- (firstn_skipn n sorted) in Hs.
  apply newest_first_split in Hs as [Hs1 Hs2].
  split; [now rewrite firstn_skipn|]. split; [|split; assumption].
  rewrite length_firstn, (Permutation_length Hp). lia.
Qed.

End Windows.

Lemma get_user_sessions_run (env : Env) (uid : str) (n : nat) (w : World) :
  supabase_service.get_user_sessions env uid n w
  = (Ok (match fault_at env (step w) with
         | None => listed_sessions uid n w
         | Some _ => []
         end), bump w).
Proof.
  unfold supabase_service.get_user_sessions,
    supabase_service.select_sessions, supabase_service.execute,
    try_except, bind.
  rewrite tick_run.
  destruct (fault_at env (step w)) as [[m|]|]; try reflexivity.
  unfold raise. destruct (supabase_service.table_missing _); reflexivity.
Qed.

(** X9. The list-sessions endpoint never fails. When the datastore raises
    or returns no data it answers with the empty list; when the datastore
    answers, it returns min(count, limit) sessions of the caller, most
    recently updated first, and every session left out was updated no later
    than every session returned. *)
Theorem sessions_listed_newest_first
    (env : Env) (user : User) (n : nat) (w : World) :
  exists rows,
    router.get_user_sessions env user n w
      = (Ok (map router.chat_session_model rows), bump w)
    /\ (fault_at env (step w) <> None -> rows = [])
    /\ (fault_at env (step w) = None ->
        exists rest,
          Permutation (rows ++ rest) (user_sessions (u_id user) w)
          /\ length rows = Nat.min (length (user_sessions (u_id user) w)) n
          /\ newest_first s_updated_at rows
          /\ (forall x y, In x rows -> In y rest ->
              s_updated_at y <= s_updated_at x)).
Proof.
  unfold router.get_user_sessions, router.all_to_500, try_except, bind.
  rewrite get_user_sessions_run.
  destruct (fault_at env (step w)) as [f|] eqn:E.
  - exists []. split; [reflexivity|]. split; [reflexivity | discriminate].
  - exists (listed_sessions (u_id user) n w).
    split; [reflexivity|]. split; [congruence|]. intros _.
    exists (skipn n (order_by (desc s_updated_at)
                       (user_sessions (u_id user) w))).
    apply (newest_window s_updated_at n (user_sessions (u_id user) w)).
Qed.

Example outage_lists_no_sessions :
  fst (router.get_user_sessions (sample_env [] (fails_at 0)) bob 50
         (world [bob_session] [bob_message]))
  = Ok [].
Proof. reflexivity. Qed.

Lemma get_chat_history_run (env : Env) (uid : str) (sid : option str)
    (n : nat) (w : World) :
  supabase_service.get_chat_history env uid sid n w
  = (Ok (match fault_at env (step w) with
         | None => history_rows uid sid n w
         | Some _ => []
         end), bump w).
Proof.
  unfold supabase_service.get_chat_history,
    supabase_service.select_messages, supabase_service.execute,
    try_except, bind.
  rewrite tick_run.
  destruct (fault_at env (step w)) as [[m|]|]; reflexivity.
Qed.

Lemma mapM_history_ok (sid : str) (rows : list MessageRow) (w : World) :
  (forall m, In m rows -> m_session_id m = Some sid) ->
  mapM router.chat_history_model rows w
  = (Ok (map (history_entry sid) rows), w).
Proof.
  induction rows as [|m rows IH]; intros H; [reflexivity|].
  simpl. unfold bind, router.chat_history_model at 1.
  rewrite (H m) by now left.
  unfold ret at 1. rewrite IH by (intros m' Hm'; apply H; now right).
  reflexivity.
Qed.

Lemma mapM_history_null (rows : list MessageRow) (w : World) :
  (exists m, In m rows /\ m_session_id m = None) ->
  mapM router.chat_history_model rows w
  = (Raise (Exception (lit "1 validation error for ChatHistory")), w).
Proof.
  induction rows as [|m rows IH]; intros (m0 & Hin & Hnull);
    [destruct Hin|].
  simpl. unfold bind, router.chat_history_model at 1.
  destruct (m_session_id m) as [s|] eqn:E; [|reflexivity].
  unfold ret at 1. rewrite IH; [reflexivity|].
  destruct Hin as [->|Hin]; [congruence|]. now exists m0.
Qed.

Lemma in_limit {A} (n : nat) (l : list A) (x : A) :
  In x (firstn n l) -> In x l.
Proof.
  intros H. rewrite <- (firstn_skipn n l). apply in_or_app. now left.
Qed.

Lemma session_messages_linked (uid sid : str) (w : World) (m : MessageRow) :
  In m (session_messages uid sid w) ->
  m_user_id m = uid /\ m_session_id m = Some sid.
Proof.
  unfold session_messages. intros H. apply filter_In in H as [_ H].
  apply andb_true_iff in H as [Hu Hs]. apply eqb_eq in Hu.
  destruct (m_session_id m) as [s|]; [|discriminate].
  apply eqb_eq in Hs. now subst.
Qed.

(** X10. For a session of the caller, whenever the datastore answers, the
    session-history endpoint returns min(count, limit) message records of
    that session in chronological order, and they are the oldest ones:
    every record left out is at least as recent as every record
    returned. *)
Theorem session_history_is_oldest_first
    (env : Env) (sid : str) (user : User) (n : nat) (w : World)
    (s : SessionRow) :
  sid <> [] ->
  session_lookup env sid (u_id user) w = Some s ->
  fault_at env (S (step w)) = None ->
  exists rows rest,
    router.get_session_history env sid user n w
      = (Ok (map (history_entry sid) rows), bump (bump w))
    /\ Permutation (rows ++ rest) (session_messages (u_id user) sid w)
    /\ length rows
       = Nat.min (length (session_messages (u_id user) sid w)) n
    /\ chronological rows
    /\ not_after rows rest.
Proof.
  intros Hne Hlook Hup.
  pose proof (oldest_window m_created_at n
                (session_messages (u_id user) sid w)) as (Hp & Hl & Hs & Ho).
  exists (firstn n (order_by (asc m_created_at)
                      (session_messages (u_id user) sid w))).
  exists (skipn n (order_by (asc m_created_at)
                     (session_messages (u_id user) sid w))).
  split; [|split; [|split; [|split]]]; try assumption.
  unfold router.get_session_history, router.reraise_http, try_except, bind.
  rewrite get_session_by_id_run, Hlook, get_chat_history_run.
  change (step (bump w)) with (S (step w)). rewrite Hup.
  unfold history_rows, limit.
  change (chat_messages (bump w)) with (chat_messages w).
  rewrite message_in_session by assumption.
  rewrite (mapM_history_ok sid); [reflexivity|].
  intros m Hm. apply in_limit in Hm.
  apply (Permutation_in _ (order_by_perm _ _)) in Hm.
  now apply session_messages_linked in Hm.
Qed.

Lemma session_history_is_oldest_first_witness :
  uuid_str 42 <> []
  /\ session_lookup (healthy_env []) (uuid_str 42) (u_id alice)
       (world [alice_session] six_messages) = Some alice_session
  /\ fault_at (healthy_env [])
       (S (step (world [alice_session] six_messages))) = None
  /\ exists rows rest,
       router.get_session_history (healthy_env []) (uuid_str 42) alice 4
         (world [alice_session] six_messages)
       = (Ok (map (history_entry (uuid_str 42)) rows),
          bump (bump (world [alice_session] six_messages)))
       /\ Permutation (rows ++ rest)
            (session_messages (u_id alice) (uuid_str 42)
               (world [alice_session] six_messages))
       /\ length rows
          = Nat.min (length (session_messages (u_id alice) (uuid_str 42)
                               (world [alice_session] six_messages))) 4
       /\ chronological rows
       /\ not_after rows rest.
Proof.
  split; [discriminate|]. split; [reflexivity|]. split; [reflexivity|].
  apply (session_history_is_oldest_first (healthy_env []) (uuid_str 42)
           alice 4 (world [alice_session] six_messages) alice_session);
    [discriminate | reflexivity | reflexivity].
Defined.

(** With six records and a limit of four, the two most recent are the ones
    left out. *)
Example history_cuts_recent_messages :
  fst (router.get_session_history (healthy_env []) (uuid_str 42) alice 4
         (world [alice_session] six_messages))
  = Ok (map (fun t => history_entry (uuid_str 42) (alice_message t))
          [1; 2; 3; 4]).
Proof. reflexivity. Qed.

(** X11. The caller's unfiltered history fails as a whole on a record
    without a session: whenever the datastore answers and one of the
    selected records has a null session identifier, the endpoint answers 500
    "Failed to retrieve chat history" instead of the list. *)
Theorem history_rejects_sessionless_record
    (env : Env) (n : nat) (osid : option str) (user : User) (w : World)
    (m : MessageRow) :
  truthy_opt osid = false ->
  fault_at env (step w) = None ->
  In m (history_rows (u_id user) osid n w) ->
  m_session_id m = None ->
  router.get_chat_history env n osid user w
  = (Raise (HTTPException 500 (lit "Failed to retrieve chat history")),
     bump w).
Proof.
  intros Hf Hup Hin Hnull.
  unfold router.get_chat_history, router.reraise_http, try_except, bind.
  rewrite validate_session_falsy by assumption.
  rewrite get_chat_history_run, Hup.
  rewrite mapM_history_null by (now exists m). reflexivity.
Qed.

Lemma history_rejects_sessionless_record_witness :
  truthy_opt None = false
  /\ fault_at (healthy_env []) (step (world [] [mkMessage (uuid_str 9)
       (lit "alice") None (lit "Hello") (lit "Hi there") 3])) = None
  /\ In (mkMessage (uuid_str 9) (lit "alice") None (lit "Hello")
           (lit "Hi there") 3)
       (history_rows (u_id alice) None 10
          (world [] [mkMessage (uuid_str 9) (lit "alice") None (lit "Hello")
                       (lit "Hi there") 3]))
  /\ router.get_chat_history (healthy_env []) 10 None alice
       (world [] [mkMessage (uuid_str 9) (lit "alice") None (lit "Hello")
                    (lit "Hi there") 3])
     = (Raise (HTTPException 500 (lit "Failed to retrieve chat history")),
        bump (world [] [mkMessage (uuid_str 9) (lit "alice") None
                          (lit "Hello") (lit "Hi there") 3])).
Proof.
  split; [reflexivity|]. split; [reflexivity|].
  split; [vm_compute; now left|].
  apply (history_rejects_sessionless_record (healthy_env []) 10 None alice
           (world [] [mkMessage (uuid_str 9) (lit "alice") None (lit "Hello")
                        (lit "Hi there") 3])
           (mkMessage (uuid_str 9) (lit "alice") None (lit "Hello")
              (lit "Hi there") 3));
    [reflexivity | reflexivity | vm_compute; now left | reflexivity].
Defined.

(** Such a record is what a chat turn leaves behind when the session could
    not be created: the history of the caller then answers 500. *)
Example history_after_failed_session_creation :
  fst (router.get_chat_history (sample_env (lit "Hi there") (fails_at 4))
         10 None alice
         (snd (router.send_chat_message
                 (sample_env (lit "Hi there") (fails_at 4))
                 (mkChatRequest (lit "Hello") None) alice (world [] []))))
  = Raise (HTTPException 500 (lit "Failed to retrieve chat history")).
Proof. reflexivity. Qed.

(** ** Deleting and creating a session *)

Lemma filter_not_owned (sid uid : str) (l : list SessionRow) (s : SessionRow) :
  In s (filter (fun s => negb (supabase_service.session_is sid uid s)) l) ->
  s_id s = sid -> s_user_id s <> uid.
Proof.
  intros H Hi Hu. apply filter_In in H as [_ H].
  apply negb_true_iff in H.
  assert (supabase_service.session_is sid uid s = true)
    by (apply session_is_true; now split).
  congruence.
Qed.

(** X12. The delete endpoint answers in one of two ways, whatever the
    datastore does. Either it reports success, and then the sessions table
    has lost exactly the rows with this identifier and this owner, so that
    the session is no longer the caller's. Or it answers 404, also when the
    delete request itself raised, and then both tables are as before. It
    never answers 500. *)
Theorem delete_succeeds_or_404
    (env : Env) (sid : str) (user : User) (w : World) :
  exists r w',
    router.delete_chat_session env sid user w = (r, w')
    /\ match r with
       | Ok resp =>
           del_message resp = lit "Session deleted successfully"
           /\ chat_sessions w'
              = filter (fun s => negb (supabase_service.session_is sid
                                         (u_id user) s))
                  (chat_sessions w)
           /\ not_owned sid (u_id user) w'
       | Raise e => e = router.not_found /\ same_tables w w'
       end.
Proof.
  unfold router.delete_chat_session, router.reraise_http,
    supabase_service.delete_session, try_except, bind.
  rewrite get_session_by_id_run.
  destruct (session_lookup env sid (u_id user) w) as [cur|].
  - unfold supabase_service.delete_sessions, supabase_service.execute, bind.
    rewrite tick_run.
    destruct (fault_at env (step (bump w))) as [[m|]|].
    + unfold raise.
      destruct (supabase_service.table_missing _);
        (eexists; eexists; split; [reflexivity|]; split;
         [reflexivity | split; reflexivity]).
    + eexists. eexists. split; [reflexivity|].
      split; [reflexivity|]. split; [reflexivity|].
      intros s Hs. eapply filter_not_owned. exact Hs.
    + eexists. eexists. split; [reflexivity|].
      split; [reflexivity|]. split; [reflexivity|].
      intros s Hs. eapply filter_not_owned. exact Hs.
  - eexists. eexists. split; [reflexivity|].
    split; [reflexivity | split; reflexivity].
Qed.

Example delete_outage_reads_as_not_found :
  router.delete_chat_session (sample_env [] (fails_at 1)) (uuid_str 7) bob
    (world [bob_session] [bob_message])
  = (Raise router.not_found, mkWorld [bob_session] [bob_message] 2 []).
Proof. reflexivity. Qed.

Example delete_then_history :
  fst (router.get_session_history (healthy_env []) (uuid_str 7) bob 50
         (snd (router.delete_chat_session (healthy_env []) (uuid_str 7) bob
                 (world [bob_session] [bob_message]))))
  = Raise router.not_found.
Proof. reflexivity. Qed.

(** X13. Creating a session and looking it up: whenever the datastore
    answers the insert and the generated identifier is not in use, the
    create endpoint adds exactly one row, owned by the caller, with no
    messages and with the requested title, or "New Chat" when the title is
    missing or empty; a lookup by the caller that the datastore answers
    then finds that row. *)
Theorem created_session_is_found
    (env : Env) (request : CreateSessionRequest) (user : User) (w : World) :
  fault_at env (3 + step w) = None ->
  fault_at env (4 + step w) = None ->
  fresh_ids env w ->
  exists row w',
    router.create_chat_session env request user w
      = (Ok (router.chat_session_model row), w')
    /\ chat_sessions w' = chat_sessions w ++ [row]
    /\ chat_messages w' = chat_messages w
    /\ s_user_id row = u_id user
    /\ s_message_count row = 0
    /\ s_title row = (if truthy_opt (rq_title request)
                      then match rq_title request with
                           | Some t => t
                           | None => []
                           end
                      else lit "New Chat")
    /\ supabase_service.get_session_by_id env (s_id row) (u_id user) w'
       = (Ok (Some row), bump w').
Proof.
  intros Hup Hup' Hfresh.
  unfold router.create_chat_session, router.all_to_500, try_except, bind.
  rewrite create_chat_session_run by assumption.
  eexists. eexists. split; [reflexivity|].
  repeat (split; [reflexivity|]).
  rewrite get_session_by_id_run. unfold session_lookup.
  cbn [step chat_sessions]. rewrite Hup'.
  rewrite filter_app, filter_session_fresh
    by (intros s Hs; now apply (Hfresh (step w) s)).
  cbn [created_session s_id s_user_id filter app].
  change (uuid_str (uuid4_value env (step w)))
    with (s_id (created_session env (u_id user)
                  (if truthy_opt (rq_title request)
                   then match rq_title request with
                        | Some t => t
                        | None => []
                        end
                   else lit "New Chat") (step w))) at 1.
  change (u_id user)
    with (s_user_id (created_session env (u_id user)
                       (if truthy_opt (rq_title request)
                        then match rq_title request with
                             | Some t => t
                             | None => []
                             end
                        else lit "New Chat") (step w))) at 1.
  rewrite session_is_self. reflexivity.
Qed.

Lemma created_session_is_found_witness :
  fault_at (healthy_env []) (3 + step (world [] [])) = None
  /\ fault_at (healthy_env []) (4 + step (world [] [])) = None
  /\ fresh_ids (healthy_env []) (world [] [])
  /\ exists row w',
       router.create_chat_session (healthy_env [])
         (mkCreateSessionRequest (Some [])) alice (world [] [])
       = (Ok (router.chat_session_model row), w')
       /\ chat_sessions w' = chat_sessions (world [] []) ++ [row]
       /\ chat_messages w' = chat_messages (world [] [])
       /\ s_user_id row = u_id alice
       /\ s_message_count row = 0
       /\ s_title row
          = (if truthy_opt (rq_title (mkCreateSessionRequest (Some [])))
             then match rq_title (mkCreateSessionRequest (Some [])) with
                  | Some t => t
                  | None => []
                  end
             else lit "New Chat")
       /\ supabase_service.get_session_by_id (healthy_env []) (s_id row)
            (u_id alice) w'
          = (Ok (Some row), bump w').
Proof.
  assert (Hfresh : fresh_ids (healthy_env []) (world [] [])).
  { intros k s []. }
  split; [reflexivity|]. split; [reflexivity|]. split; [exact Hfresh|].
  apply (created_session_is_found (healthy_env [])
           (mkCreateSessionRequest (Some [])) alice (world [] [])
           eq_refl eq_refl Hfresh).
Defined.

(** ** What a chat turn never does *)

#[export] Instance owners_kept_frame : Frame owners_kept.
Proof.
  split; unfold owners_kept.
  - intros w s Hs. now exists s.
  - intros a b c Hab Hbc s Hs.
    destruct (Hab s Hs) as (s1 & H1 & Hi & Hu & Ht).
    destruct (Hbc s1 H1) as (s2 & H2 & Hi2 & Hu2 & Ht2).
    exists s2. repeat split; congruence.
  - intros w s Hs. now exists s.
  - intros f w s Hs. now exists s.
Qed.

Lemma owners_kept_record_prompt (p : list ChatMsg) :
  preserves owners_kept (record_prompt p).
Proof. intros w s Hs. now exists s. Qed.

Lemma owners_kept_append (row : SessionRow) :
  preserves owners_kept (set_sessions (fun l => l ++ [row])).
Proof.
  intros w s Hs. exists s. simpl. rewrite in_app_iff. tauto.
Qed.

Lemma owners_kept_count (sid : option str) :
  preserves owners_kept
    (set_sessions (map (supabase_service.count_message sid))).
Proof.
  intros w s Hs. exists (supabase_service.count_message sid s). simpl.
  split; [now apply in_map|].
  unfold supabase_service.count_message.
  destruct sid as [i|]; [destruct (eqb (s_id s) i)|]; repeat split.
Qed.

Lemma owners_kept_rename (p : SessionRow -> bool) (ttl : str)
    (now : timestamp) :
  preserves owners_kept
    (set_sessions (map (fun s => if p s then renamed ttl now s else s))).
Proof.
  intros w s Hs.
  exists ((fun s => if p s then renamed ttl now s else s) s). simpl.
  split; [now apply (in_map (fun s => if p s then renamed ttl now s else s))|].
  destruct (p s); repeat split.
Qed.

#[export] Hint Resolve owners_kept_record_prompt owners_kept_append
  owners_kept_count : frame.
#[export] Hint Extern 1 (preserves owners_kept (set_sessions (map _))) =>
  apply owners_kept_rename : frame.

Lemma owners_kept_turn_reply (env : Env) (request : ChatRequest)
    (user : User) :
  preserves owners_kept (router.turn_reply env request user).
Proof.
  unfold router.turn_reply, openai_service.get_chat_response,
    openai_service.generate_fitness_response.
  frame.
Qed.

Lemma owners_kept_turn_persist (env : Env) (request : ChatRequest)
    (user : User) (ai : str) :
  preserves owners_kept (router.turn_persist env request user ai).
Proof.
  unfold router.turn_persist, router.auto_update_title,
    supabase_service.log_chat_message, supabase_service.create_chat_session,
    supabase_service.insert_session, supabase_service.insert_message,
    supabase_service.update_session_title, supabase_service.update_sessions.
  frame.
Qed.

(** X14. A chat turn never deletes a session and never changes the
    identifier, the owner or the creation time of one: every session stored
    before the turn is still stored after it with these three fields,
    whatever the datastore and the completion provider do. *)
Theorem chat_turn_keeps_sessions
    (env : Env) (request : ChatRequest) (user : User) (w : World) :
  owners_kept w (snd (router.send_chat_message env request user w)).
Proof.
  rewrite send_chat_message_split, reraise_http_world.
  apply (preserves_bind owners_kept).
  - apply owners_kept_turn_reply.
  - intros ai. apply owners_kept_turn_persist.
Qed.

Lemma auto_update_title_keeps_messages (env : Env)
    (fsid : option str) (uid msg : str) :
  keeps chat_messages (router.auto_update_title env fsid uid msg).
Proof.
  unfold router.auto_update_title, supabase_service.update_session_title,
    supabase_service.update_sessions.
  keeps_walk.
Qed.

Lemma log_chat_message_appends (env : Env) (uid msg ai : str)
    (sid : option str) (w : World) :
  exists extra,
    chat_messages (snd (supabase_service.log_chat_message env uid msg ai sid w))
      = chat_messages w ++ extra
    /\ length extra <= 1
    /\ (forall m, In m extra ->
        m_user_id m = uid /\ m_user_message m = msg /\ m_ai_response m = ai).
Proof.
  unfold supabase_service.log_chat_message.
  set (first := if negb (truthy_opt sid)
                then try_except
                       (session <- supabase_service.create_chat_session env uid
                                     (supabase_service.session_title msg) ;;
                        ret (Some (s_id session)))
                       (fun _ => ret None)
                else ret sid).
  assert (Hk : keeps chat_messages first).
  { unfold first, supabase_service.create_chat_session,
      supabase_service.insert_session.
    keeps_walk. }
  unfold bind at 1. specialize (Hk w).
  destruct (first w) as [[sid'|e] [ss ms k ps]]; simpl in Hk; subst ms.
  - unfold supabase_service.insert_message. run.
    destruct (fault_at env (S (S k))) as [[m|]|]; run.
    + exists []. rewrite app_nil_r. split; [reflexivity|].
      split; [simpl; lia | intros m0 []].
    + eexists [_]. split; [reflexivity|]. split; [simpl; lia|].
      intros m0 [<-|[]]. repeat split.
    + eexists [_]. split; [reflexivity|]. split; [simpl; lia|].
      intros m0 [<-|[]]. repeat split.
  - exists []. rewrite app_nil_r. split; [reflexivity|].
    split; [simpl; lia | intros m0 []].
Qed.

(** X15. A chat turn never changes or removes a stored message record: the
    messages table after the turn is the table before it, followed by at
    most one new record, which carries the caller's identifier and the
    message of the request. *)
Theorem chat_turn_appends_one_message
    (env : Env) (request : ChatRequest) (user : User) (w : World) :
  exists extra,
    chat_messages (snd (router.send_chat_message env request user w))
      = chat_messages w ++ extra
    /\ length extra <= 1
    /\ (forall m, In m extra ->
        m_user_id m = u_id user /\ m_user_message m = rq_message request).
Proof.
  rewrite send_chat_message_split, reraise_http_world.
  destruct (turn_reply_reads env request user) as [_ Km]. specialize (Km w).
  unfold bind at 1.
  destruct (router.turn_reply env request user w) as [[ai|e] w1];
    simpl in Km.
  - unfold router.turn_persist, bind at 1.
    destruct (log_chat_message_appends env (u_id user) (rq_message request)
                ai (rq_session_id request) w1) as (extra & He & Hl & Hm).
    destruct (supabase_service.log_chat_message env _ _ ai _ w1)
      as [[stored|e] w2]; simpl in He.
    + cbv zeta. unfold bind.
      pose proof (auto_update_title_keeps_messages env
                    (dict_get (d_session_id stored) (rq_session_id request))
                    (u_id user) (rq_message request) w2) as Ka.
      destruct (router.auto_update_title env _ _ _ w2) as [[t|e] w3];
        simpl in Ka; simpl; exists extra; rewrite Ka, He, Km;
        (split; [reflexivity|]; split; [assumption|]);
        intros m Hin; destruct (Hm m Hin) as (H1 & H2 & _); now split.
    + simpl. exists extra. rewrite He, Km.
      split; [reflexivity|]. split; [assumption|].
      intros m Hin. destruct (Hm m Hin) as (H1 & H2 & _). now split.
  - simpl. exists []. rewrite Km, app_nil_r.
    split; [reflexivity|]. split; [simpl; lia | intros m []].
Qed.

(** ** The first message of a session with the sentinel title *)

Lemma update_session_title_outcome (env : Env) (sid uid ttl : str)
    (w : World) :
  exists ok w',
    supabase_service.update_session_title env sid uid ttl w = (Ok ok, w')
    /\ chat_messages w' = chat_messages w
    /\ (chat_sessions w' = chat_sessions w
        \/ exists now,
             chat_sessions w'
             = map (fun s => if supabase_service.session_is sid uid s
                             then renamed ttl now s else s)
                 (chat_sessions w)).
Proof.
  unfold supabase_service.update_session_title, try_except, bind.
  rewrite get_session_by_id_run.
  destruct (session_lookup env sid uid w) as [cur|].
  - destruct w as [ss ms k ps]. unfold supabase_service.update_sessions.
    run. destruct (fault_at env (S (S k))) as [[m|]|]; run.
    + destruct (supabase_service.table_missing _);
        (eexists; eexists; split; [reflexivity|]; split; [reflexivity|];
         now left).
    + eexists. eexists. split; [reflexivity|]. split; [reflexivity|].
      right. eexists. reflexivity.
    + eexists. eexists. split; [reflexivity|]. split; [reflexivity|].
      right. eexists. reflexivity.
  - eexists. eexists. split; [reflexivity|]. split; [reflexivity|]. now left.
Qed.

(** X16. When the session read back after persisting has the title
    ["New Chat"] and a message count of 1, the response reports the title
    computed from the message, whether or not the rename reached the
    datastore: the sessions table is then either renamed for this session
    and owner, or left as persisting left it. *)
Theorem first_message_title_is_reported
    (env : Env) (request : ChatRequest) (user : User)
    (w w1 w2 : World) (ai fsid : str) (stored : MessageDict)
    (cur : SessionRow) :
  router.turn_reply env request user w = (Ok ai, w1) ->
  supabase_service.log_chat_message env (u_id user) (rq_message request) ai
    (rq_session_id request) w1 = (Ok stored, w2) ->
  dict_get (d_session_id stored) (rq_session_id request) = Some fsid ->
  fsid <> [] ->
  session_lookup env fsid (u_id user) w2 = Some cur ->
  s_title cur = lit "New Chat" ->
  s_message_count cur = 1 ->
  exists w3,
    router.send_chat_message env request user w
      = (Ok {| r_message := ai; r_timestamp := d_created_at stored;
               r_session_id := Some fsid;
               r_session_title :=
                 Some (router.auto_title (rq_message request)) |}, w3)
    /\ chat_messages w3 = chat_messages w2
    /\ (chat_sessions w3 = chat_sessions w2
        \/ exists now,
             chat_sessions w3
             = map (fun s => if supabase_service.session_is fsid
                                  (u_id user) s
                             then renamed
                                    (router.auto_title (rq_message request))
                                    now s
                             else s)
                 (chat_sessions w2)).
Proof.
  intros Hreply Hlog Hfinal Hne Hlook Htitle Hcount.
  destruct (update_session_title_outcome env fsid (u_id user)
              (router.auto_title (rq_message request)) (bump w2))
    as (ok & w3 & Hupd & Hm & Hs).
  exists w3. split; [|split; [exact Hm | exact Hs]].
  rewrite send_chat_message_split. unfold router.reraise_http.
  apply try_ok. rewrite (bind_ok _ _ _ _ _ Hreply).
  unfold router.turn_persist. rewrite (bind_ok _ _ _ _ _ Hlog).
  cbv zeta. rewrite Hfinal.
  unfold router.auto_update_title.
  rewrite (proj2 (truthy_nonempty fsid) Hne).
  unfold bind at 1. unfold bind at 1.
  rewrite get_session_by_id_run, Hlook, Htitle, Hcount.
  change (eqb (lit "New Chat") (lit "New Chat") && (1 =? 1)) with true.
  cbv iota zeta. unfold bind at 1. rewrite Hupd. reflexivity.
Qed.

(** The rename is refused by the datastore (position 8 of the run), and the
    response still carries the new title. *)
Lemma first_message_title_is_reported_witness :
  exists w1 w2 ai stored cur,
    router.turn_reply (sample_env (lit "Hi there") (fails_at 8))
      (mkChatRequest (lit "Hello") (Some (uuid_str 42))) alice
      (world [mkSession (uuid_str 42) (lit "alice") (lit "New Chat") 1 1 0] [])
    = (Ok ai, w1)
    /\ supabase_service.log_chat_message
         (sample_env (lit "Hi there") (fails_at 8))
         (u_id alice) (lit "Hello") ai (Some (uuid_str 42)) w1
       = (Ok stored, w2)
    /\ dict_get (d_session_id stored) (Some (uuid_str 42))
       = Some (uuid_str 42)
    /\ uuid_str 42 <> []
    /\ session_lookup (sample_env (lit "Hi there") (fails_at 8))
         (uuid_str 42) (u_id alice) w2 = Some cur
    /\ s_title cur = lit "New Chat"
    /\ s_message_count cur = 1
    /\ exists w3,
         router.send_chat_message (sample_env (lit "Hi there") (fails_at 8))
           (mkChatRequest (lit "Hello") (Some (uuid_str 42))) alice
           (world [mkSession (uuid_str 42) (lit "alice") (lit "New Chat")
                     1 1 0] [])
         = (Ok {| r_message := ai; r_timestamp := d_created_at stored;
                  r_session_id := Some (uuid_str 42);
                  r_session_title :=
                    Some (router.auto_title (lit "Hello")) |}, w3)
         /\ chat_messages w3 = chat_messages w2
         /\ (chat_sessions w3 = chat_sessions w2
             \/ exists now,
                  chat_sessions w3
                  = map (fun s => if supabase_service.session_is
                                       (uuid_str 42) (u_id alice) s
                                  then renamed
                                         (router.auto_title (lit "Hello"))
                                         now s
                                  else s)
                      (chat_sessions w2)).
Proof.
  do 5 eexists.
  split; [vm_compute; reflexivity|].
  split; [vm_compute; reflexivity|].
  split; [vm_compute; reflexivity|].
  split; [discriminate|].
  split; [vm_compute; reflexivity|].
  split; [vm_compute; reflexivity|].
  split; [vm_compute; reflexivity|].
  eapply (first_message_title_is_reported
            (sample_env (lit "Hi there") (fails_at 8))
            (mkChatRequest (lit "Hello") (Some (uuid_str 42))) alice
            (world [mkSession (uuid_str 42) (lit "alice") (lit "New Chat")
                      1 1 0] [])).
  - vm_compute. reflexivity.
  - vm_compute. reflexivity.
  - vm_compute. reflexivity.
  - discriminate.
  - vm_compute. reflexivity.
  - vm_compute. reflexivity.
  - vm_compute. reflexivity.
Defined.

Example refused_rename_still_reported :
  let run := router.send_chat_message
               (sample_env (lit "Hi there") (fails_at 8))
               (mkChatRequest (lit "Hello") (Some (uuid_str 42))) alice
               (world [alice_session] []) in
  fst run
  = Ok {| r_message := lit "Hi there"; r_timestamp := 103;
          r_session_id := Some (uuid_str 42);
          r_session_title := Some (lit "Hello") |}
  /\ map s_title (chat_sessions (snd run)) = [lit "New Chat"].
Proof. split; reflexivity. Qed.
